(** * The model handler of the multi-model endpoint

    A shallow embedding of [multi-model-endpoint/container/model_handler.py]:
    the [ModelHandler] class with its lifecycle methods ([initialize],
    [preprocess], [inference], [postprocess], [handle]), the module-level
    singleton [_service] and the module-level entry point [handle].

    The handler is stateful and fallible, so its methods are computations in
    a small state-and-exception monad [M]: the state is the singleton
    instance together with a trace of what happened (log records and method
    entries), and an exception leaves the state as it was when it was raised,
    as in Python.  What lies outside the file (the file system, [pke],
    [nltk], [gensim]) comes in as records of operations. *)

From stdpp Require Import gmap strings list.
From Stdlib Require Import ZArith NArith.
From Stdlib.Strings Require Import Ascii Byte.

Set Warnings "-register-all".

(** ** Python values used by the handler *)

(** Exceptions, by class.  The messages the program itself writes
    ([RuntimeError]) are kept; of those the interpreter writes only what
    names the cause is kept (the key, the attribute, the variable).
    [MemoryError] is raised without arguments.  [LibraryError] is whatever a
    library or the file system raises.  An exception raised while another
    one is being handled carries that one as its [__context__]:
    [WithContext c e] is the exception [e] with the context [c]. *)
Inductive exn : Type :=
| IndexError
| RuntimeError (msg : string)
| MemoryError
| TypeError
| KeyError (key : string)
| AttributeError (attr : string)
| UnboundLocalError (name : string)
| UnicodeDecodeError
| LibraryError (cls : string) (msg : string)
| WithContext (context : exn) (e : exn).

Inductive result (A : Type) : Type :=
| Ok (a : A)
| Raise (e : exn).
Arguments Ok {A} a.
Arguments Raise {A} e.

(** The value [json.load] builds. *)
Inductive jval : Type :=
| JNull
| JBool (b : bool)
| JNum (z : Z)
| JStr (s : string)
| JArr (l : list jval)
| JObj (m : gmap string jval).

(** A decoded text is a sequence of code points. *)
Definition text : Type := list N.

(** What [preprocess] hands to [inference]: a text, or a table whose rows are
    sequences of text cells (a data frame). *)
Inductive pyval : Type :=
| PStr (t : text)
| PFrame (rows : list (list text)).

Definition is_frame (v : pyval) : bool :=
  match v with PFrame _ => true | PStr _ => false end.

(** ** String operations *)

(** [str(x)] for a value that is a string or [None]. *)
Definition py_str (x : option string) : string :=
  match x with Some s => s | None => "None" end.

(** [x == s] for a value that is a string or [None]. *)
Definition py_eq (x : option string) (s : string) : bool :=
  match x with Some x => String.eqb x s | None => false end.

(** [fmt.format(a, b, ...)] for a format made of [{}] fields.  Every call in the
    handler passes as many arguments as the format has fields. *)
Fixpoint format (fmt : string) (args : list string) : string :=
  match fmt with
  | String "{"%char (String "}"%char rest) =>
      match args with
      | a :: args' => a +:+ format rest args'
      | [] => format rest []
      end
  | String c rest => String c (format rest args)
  | EmptyString => EmptyString
  end.

Fixpoint has_slash (p : string) : bool :=
  match p with
  | String c p' => Ascii.eqb c "/" || has_slash p'
  | EmptyString => false
  end.

(** [os.path.basename(p)]: what follows the last slash. *)
Fixpoint basename (p : string) : string :=
  match p with
  | String c p' =>
      if has_slash p' then basename p'
      else if Ascii.eqb c "/" then p' else p
  | EmptyString => EmptyString
  end.

(** [s.split(sep)[0]] for a non-empty [sep]: what precedes the first
    occurrence of [sep], all of [s] when there is none. *)
Fixpoint split_head (s sep : string) : string :=
  if String.prefix sep s then EmptyString
  else match s with
       | String c s' => String c (split_head s' sep)
       | EmptyString => EmptyString
       end.

Fixpoint endswith (s suffix : string) : bool :=
  String.eqb s suffix ||
  match s with
  | String _ s' => endswith s' suffix
  | EmptyString => false
  end.

(** [os.path.join(a, b)] on POSIX, for strings; and for a first argument
    that may be [None], which is a [TypeError]. *)
Definition posix_join (a b : string) : string :=
  if String.prefix "/" b then b
  else if String.eqb a "" || endswith a "/" then a +:+ b
  else a +:+ "/" +:+ b.

Definition path_join (a : option string) (b : string) : result string :=
  match a with
  | None => Raise TypeError
  | Some a => Ok (posix_join a b)
  end.

(** ** UTF-8 *)

Definition in_range (lo hi b : N) : bool := ((lo <=? b) && (b <=? hi))%N.

(** [bytes.decode("utf-8")] in strict mode on the byte values: the
    well-formed sequences only (no overlong form, no surrogate, nothing
    above U+10FFFF); [None] stands for [UnicodeDecodeError]. *)
Fixpoint utf8_decode (bs : list N) : option text :=
  match bs with
  | [] => Some []
  | b0 :: r0 =>
      if (b0 <? 128)%N then cons b0 <$> utf8_decode r0
      else if in_range 194 223 b0 then
        match r0 with
        | b1 :: r1 =>
            if in_range 128 191 b1
            then cons ((b0 - 192) * 64 + (b1 - 128))%N <$> utf8_decode r1
            else None
        | _ => None
        end
      else if in_range 224 239 b0 then
        match r0 with
        | b1 :: b2 :: r2 =>
            if in_range (if (b0 =? 224)%N then 160 else 128)
                        (if (b0 =? 237)%N then 159 else 191) b1
               && in_range 128 191 b2
            then cons ((b0 - 224) * 4096 + (b1 - 128) * 64 + (b2 - 128))%N
                   <$> utf8_decode r2
            else None
        | _ => None
        end
      else if in_range 240 244 b0 then
        match r0 with
        | b1 :: b2 :: b3 :: r3 =>
            if in_range (if (b0 =? 240)%N then 144 else 128)
                        (if (b0 =? 244)%N then 143 else 191) b1
               && in_range 128 191 b2 && in_range 128 191 b3
            then cons ((b0 - 240) * 262144 + (b1 - 128) * 4096
                       + (b2 - 128) * 64 + (b3 - 128))%N
                   <$> utf8_decode r3
            else None
        | _ => None
        end
      else None
  end.

Definition decode (payload : list byte) : result text :=
  match utf8_decode (Byte.to_N <$> payload) with
  | Some t => Ok t
  | None => Raise UnicodeDecodeError
  end.

(** ** The world outside the file *)

(** The file system as the handler sees it: [glob.glob(pattern)] with the
    matches in the order the system lists them, [os.path.isfile(path)], and
    [json.load] of an opened file (an exception when the file cannot be
    opened or does not hold a JSON document). *)
Record FileSystem : Type := {
  fs_glob : string -> list string;
  fs_isfile : string -> bool;
  fs_load_json : string -> result jval;
}.

(** The libraries: [pke]'s extractor is a mutable object, so each method takes
    the extractor's state and gives the new one; any call may raise.
    [keyphrases] is what [get_n_best] returns (scored phrases), [similarity]
    what [n_similarity] returns (a float).  Looking up [stopwords.words]
    loads the corpus, which may raise, and gives the function.  The
    libraries read files themselves ([pke] opens the model at the path it is
    given, and a document that is the path of a file; [nltk] its corpus), so
    every operation takes the file system it runs on. *)
Record Libs : Type := {
  extractor : Type;
  keyphrases : Type;
  similarity : Type;
  pke_TopicalPageRank : FileSystem -> result extractor;
  pke_load_document :
    FileSystem -> extractor -> pyval -> jval -> jval -> result extractor;
  pke_candidate_selection : FileSystem -> extractor -> jval -> result extractor;
  pke_candidate_weighting :
    FileSystem -> extractor -> jval -> gset string -> option string ->
    result extractor;
  pke_get_n_best :
    FileSystem -> extractor -> jval -> result (keyphrases * extractor);
  stopwords_words : FileSystem -> result (jval -> result (list text));
  simple_preprocess : FileSystem -> text -> result (list text);
}.

(** The server's context: [context.system_properties] is a dict. *)
Record Context : Type := {
  system_properties : gmap string string;
}.

(** A request entry is a dict; [data.get('body')] is its byte payload. *)
Definition entry : Type := gmap string (list byte).

(** ** The handler object and the trace *)

Record ModelHandler : Type := {
  initialized : bool;
  model : option string;
  model_type : option string;
  model_params : jval;
}.

(** [ModelHandler()]: [__init__] sets every field to [None] ([JNull] is
    Python's [None]) and the flag to [False]. *)
Definition new_handler : ModelHandler :=
  {| initialized := false; model := None; model_type := None;
     model_params := JNull |}.

Inductive level : Type := INFO | ERROR.

Inductive fmtarg : Type :=
| AStr (s : string)
| AList (l : list string)
| AExn (e : exn).

Inductive callee : Type :=
| c_get_model_files_prefix
| c_read_model_params
| c_initialize
| c_preprocess
| c_inference
| c_postprocess
| c_handle
| c_TopicalPageRank.

Global Instance callee_eq_dec : EqDecision callee.
Proof. solve_decision. Defined.

(** What the trace records: a call of [logging.info] or [logging.error] with
    its format and the argument formatted into it, and the entry into a
    method of the handler or into the extractor's constructor. *)
Inductive event : Type :=
| Log (lvl : level) (fmt : string) (arg : fmtarg)
| Enter (f : callee).

(** The module's state: the singleton [_service] and the trace so far. *)
Record World : Type := {
  _service : ModelHandler;
  trace : list event;
}.

(** ** The monad *)

Definition M (A : Type) : Type := World -> result A * World.

Definition ret {A : Type} (a : A) : M A := fun w => (Ok a, w).

Definition raise {A : Type} (e : exn) : M A := fun w => (Raise e, w).

Definition bind {A B : Type} (m : M A) (k : A -> M B) : M B :=
  fun w =>
    match m w with
    | (Ok a, w') => k a w'
    | (Raise e, w') => (Raise e, w')
    end.

Notation "'do' x <- m ; k" := (bind m (fun x => k))
  (at level 10, x name, m at level 100, k at level 200).
Notation "'run' m ; k" := (bind m (fun _ => k))
  (at level 10, m at level 100, k at level 200).

Definition lift {A : Type} (r : result A) : M A := fun w => (r, w).

(** [try: m except Exception as e: h e].  What the handler raises is raised
    while [e] is being handled, so it gets [e] as its context. *)
Definition try_except {A : Type} (m : M A) (h : exn -> M A) : M A :=
  fun w =>
    match m w with
    | (Ok a, w') => (Ok a, w')
    | (Raise e, w') =>
        match h e w' with
        | (Ok a, w'') => (Ok a, w'')
        | (Raise e', w'') => (Raise (WithContext e e'), w'')
        end
    end.

Definition self : M ModelHandler := fun w => (Ok (_service w), w).

Definition update (f : ModelHandler -> ModelHandler) : M unit :=
  fun w => (Ok tt, {| _service := f (_service w); trace := trace w |}).

Definition emit (e : event) : M unit :=
  fun w => (Ok tt, {| _service := _service w; trace := trace w ++ [e] |}).

Definition logging (lvl : level) (fmt : string) (arg : fmtarg) : M unit :=
  emit (Log lvl fmt arg).

Definition enter (f : callee) : M unit := emit (Enter f).

Definition set_initialized (b : bool) (h : ModelHandler) : ModelHandler :=
  {| initialized := b; model := model h; model_type := model_type h;
     model_params := model_params h |}.

Definition set_model (m : option string) (h : ModelHandler) : ModelHandler :=
  {| initialized := initialized h; model := m; model_type := model_type h;
     model_params := model_params h |}.

Definition set_model_type (t : option string) (h : ModelHandler)
  : ModelHandler :=
  {| initialized := initialized h; model := model h; model_type := t;
     model_params := model_params h |}.

Definition set_model_params (p : jval) (h : ModelHandler) : ModelHandler :=
  {| initialized := initialized h; model := model h;
     model_type := model_type h; model_params := p |}.

(** ** Operations of Python the methods use *)

(** [l[0]] *)
Definition index0 {A : Type} (l : list A) : result A :=
  match l with
  | x :: _ => Ok x
  | [] => Raise IndexError
  end.

(** [d[key]] for a string key, on whatever [json.load] returned.  Numbers
    are the integers of the parameter files. *)
Definition subscript (d : jval) (key : string) : result jval :=
  match d with
  | JObj m =>
      match m !! key with
      | Some v => Ok v
      | None => Raise (KeyError key)
      end
  | JNull | JBool _ | JNum _ | JStr _ | JArr _ => Raise TypeError
  end.

(** Reading a local variable of a function: one that no assignment has
    bound yet raises [UnboundLocalError]. *)
Definition read_local {A : Type} (name : string) (binding : option A)
  : result A :=
  match binding with
  | Some v => Ok v
  | None => Raise (UnboundLocalError name)
  end.

(** [string.punctuation], each character as a one-character string: the
    ASCII ranges 33-47, 58-64, 91-96 and 123-126. *)
Definition punctuation : list text :=
  (fun c => [N.of_nat c]) <$>
    (seq 33 15 ++ seq 58 7 ++ seq 91 6 ++ seq 123 4).

(** [text_input.iterrows()]: the rows of a data frame; a [str] has no such
    method. *)
Definition iterrows (v : pyval) : result (list (list text)) :=
  match v with
  | PFrame rows => Ok rows
  | PStr _ => Raise (AttributeError "iterrows")
  end.

(** [row.iloc[i]] *)
Definition iloc (row : list text) (i : nat) : result text :=
  match row !! i with
  | Some c => Ok c
  | None => Raise IndexError
  end.

(** [self.model.wv]: [self.model] holds [None] (the constructor) or a path
    string ([initialize]) and nothing else ever, and neither has a [wv]
    attribute; so no word-vector object exists in this program, and
    [KeyedVectors] has no inhabitant. *)
Definition KeyedVectors : Type := Empty_set.

Definition getattr_wv (model : option string) : result KeyedVectors :=
  match model with
  | None => Raise (AttributeError "wv")
  | Some _ => Raise (AttributeError "wv")
  end.

(** [w in wv.vocab] and [wv.n_similarity(words1, words2)] *)
Definition in_vocab (wv : KeyedVectors) (w : text) : bool :=
  match wv with end.

Definition n_similarity {A : Type} (wv : KeyedVectors) (words1 words2 : list text)
  : result A :=
  match wv with end.

(** ** The methods of [ModelHandler] *)

(** What [inference] collects per input: the key phrases of a text, or the
    similarities of the rows of a table. *)
Inductive output (L : Libs) : Type :=
| Keyphrases (k : keyphrases L)
| Similarities (l : list (similarity L)).
Arguments Keyphrases {L} k.
Arguments Similarities {L} l.

Section Handler.

Variable fs : FileSystem.
Variable L : Libs.

Definition get_model_files_prefix (model_dir : option string) : M string :=
  run enter c_get_model_files_prefix;
  let sym_file_suffix := "-params.json" in
  let checkpoint_prefix_regex :=
    format "{}/*{}" [py_str model_dir; sym_file_suffix] in
  run logging INFO "checkpoint_prefix_regex: {}" (AStr checkpoint_prefix_regex);
  let test_regex := "/opt/ml/models/*" in
  let list_files := fs_glob fs test_regex in
  run logging INFO "list_files: {}" (AList list_files);
  do checkpoint_prefix_filename <-
    lift (index0 (fs_glob fs checkpoint_prefix_regex));
  let checkpoint_prefix :=
    split_head (basename checkpoint_prefix_filename) sym_file_suffix in
  run logging INFO "Prefix for the model artifacts: {}" (AStr checkpoint_prefix);
  ret checkpoint_prefix.

Definition read_model_params (model_dir : option string)
    (checkpoint_prefix : string) : M unit :=
  run enter c_read_model_params;
  do params_file_path <-
    lift (path_join model_dir (format "{}-{}" [checkpoint_prefix; "params.json"]));
  if negb (fs_isfile fs params_file_path)
  then raise (RuntimeError (format "Missing {} file." [params_file_path]))
  else
    do params <- lift (fs_load_json fs params_file_path);
    update (set_model_params params).

(** The body of the [try] statement of [initialize]. *)
Definition load_model (model_dir : option string) (checkpoint_prefix : string)
  : M unit :=
  do s <- self;
  if py_eq (model_type s) "TopicalPageRank" || py_eq (model_type s) "DocSim"
  then
    do path <-
      lift (path_join model_dir (format "{}-{}" [checkpoint_prefix; "model"]));
    run update (set_model (Some path));
    if negb (fs_isfile fs path)
    then raise (RuntimeError (format "Missing {} file." [path]))
    else ret tt
  else
    run logging ERROR "Model {} not supported!" (AStr (py_str (model_type s)));
    raise (RuntimeError
             (format "Model {} not supported!" [py_str (model_type s)])).

Definition initialize (context : Context) : M unit :=
  run enter c_initialize;
  run update (set_initialized true);
  let properties := system_properties context in
  let model_dir := properties !! "model_dir" in
  do checkpoint_prefix <- get_model_files_prefix model_dir;
  run update (set_model_type (Some checkpoint_prefix));
  run read_model_params model_dir checkpoint_prefix;
  try_except
    (load_model model_dir checkpoint_prefix)
    (fun e => run logging ERROR "Exception: {}" (AExn e); raise MemoryError).

(** The loop of [preprocess], [text_list] being the list built so far. *)
Fixpoint preprocess_loop (request : list entry) (text_list : list pyval)
  : M (list pyval) :=
  match request with
  | [] => ret text_list
  | data :: request' =>
      do body <-
        match data !! "body" with
        | Some b => ret b
        | None => raise (AttributeError "decode")
        end;
      do t <- lift (decode body);
      preprocess_loop request' (text_list ++ [PStr t])
  end.

Definition preprocess (request : list entry) : M (list pyval) :=
  run enter c_preprocess;
  do s <- self;
  if py_eq (model_type s) "TopicalPageRank" || py_eq (model_type s) "DocSim"
  then preprocess_loop request []
  else
    run logging ERROR "Model {} not supported!" (AStr (py_str (model_type s)));
    raise (RuntimeError
             (format "Model {} not supported!" [py_str (model_type s)])).

(** The body of the loop of the ranking branch of [inference] (steps 2 to
    5), on the extractor in state [ext]: the key phrases of the text and the
    state the extractor is left in. *)
Definition ranking_step (grammar language normalization window max_count : jval)
    (pos : gset string) (text_input : pyval) (ext : extractor L)
  : M (keyphrases L * extractor L) :=
  do ext1 <- lift (pke_load_document L fs ext text_input language normalization);
  do ext2 <- lift (pke_candidate_selection L fs ext1 grammar);
  do s <- self;
  do ext3 <- lift (pke_candidate_weighting L fs ext2 window pos (model s));
  lift (pke_get_n_best L fs ext3 max_count).

(** The loop itself: [ext] is the state of the one extractor object it works
    on, [phrases_list] the list built so far. *)
Fixpoint ranking_loop (grammar language normalization window max_count : jval)
    (pos : gset string) (model_input : list pyval) (ext : extractor L)
    (phrases_list : list (output L)) : M (list (output L)) :=
  match model_input with
  | [] => ret phrases_list
  | text_input :: model_input' =>
      do best <-
        ranking_step grammar language normalization window max_count pos
          text_input ext;
      ranking_loop grammar language normalization window max_count pos
        model_input' (snd best) (phrases_list ++ [Keyphrases (fst best)])
  end.

(** [[w for w in tokens if not w in stoplist and w in self.model.wv.vocab]] *)
Fixpoint filter_words (stoplist tokens : list text) : M (list text) :=
  match tokens with
  | [] => ret []
  | w :: tokens' =>
      do keep <-
        (if bool_decide (w ∈ stoplist) then ret false
         else
           do s <- self;
           do wv <- lift (getattr_wv (model s));
           ret (in_vocab wv w));
      do words <- filter_words stoplist tokens';
      ret (if keep then w :: words else words)
  end.

(** The loop over the rows of one table. *)
Fixpoint docsim_rows (stoplist : list text) (rows : list (list text))
    (similarities : list (similarity L)) : M (list (similarity L)) :=
  match rows with
  | [] => ret similarities
  | row :: rows' =>
      do cell0 <- lift (iloc row 0);
      do tokens1 <- lift (simple_preprocess L fs cell0);
      do words1 <- filter_words stoplist tokens1;
      do cell1 <- lift (iloc row 1);
      do tokens2 <- lift (simple_preprocess L fs cell1);
      do words2 <- filter_words stoplist tokens2;
      do s <- self;
      do wv <- lift (getattr_wv (model s));
      do sim <- lift (n_similarity wv words1 words2);
      docsim_rows stoplist rows' (similarities ++ [sim])
  end.

(** The loop over the tables of the batch. *)
Fixpoint docsim_loop (stoplist : list text) (model_input : list pyval)
    (inference : list (output L)) : M (list (output L)) :=
  match model_input with
  | [] => ret inference
  | text_input :: model_input' =>
      do rows <- lift (iterrows text_input);
      do similarities <- docsim_rows stoplist rows [];
      docsim_loop stoplist model_input' (inference ++ [Similarities similarities])
  end.

Definition inference (model_input : list pyval) : M (list (output L)) :=
  run enter c_inference;
  do s <- self;
  if py_eq (model_type s) "TopicalPageRank" then
    let pos : gset string := {[ "NOUN"; "PROPN"; "ADJ" ]} in
    do grammar <- lift (subscript (model_params s) "grammar");
    do language <- lift (subscript (model_params s) "language");
    do normalization <- lift (subscript (model_params s) "normalization");
    do window <- lift (subscript (model_params s) "window");
    do max_count <- lift (subscript (model_params s) "max_count");
    run enter c_TopicalPageRank;
    do ext <- lift (pke_TopicalPageRank L fs);
    ranking_loop grammar language normalization window max_count pos
      model_input ext []
  else if py_eq (model_type s) "DocSim" then
    (* [language] is a local variable of [inference] that only the ranking
       branch assigns *)
    let language : option jval := None in
    let stoplist := punctuation in
    do words <- lift (stopwords_words L fs);
    do lang <- lift (read_local "language" language);
    do stop <- lift (words lang);
    let stoplist := stoplist ++ stop in
    docsim_loop stoplist model_input []
  else
    run logging ERROR "Model {} not supported!" (AStr (py_str (model_type s)));
    raise (RuntimeError
             (format "Model {} not supported!" [py_str (model_type s)])).

Definition postprocess (inference_output : list (output L))
  : M (list (output L)) :=
  run enter c_postprocess;
  do s <- self;
  if py_eq (model_type s) "TopicalPageRank" || py_eq (model_type s) "DocSim"
  then ret inference_output
  else
    run logging ERROR "Model {} not supported!" (AStr (py_str (model_type s)));
    raise (RuntimeError
             (format "Model {} not supported!" [py_str (model_type s)])).

(** The method [ModelHandler.handle]. *)
Definition ModelHandler_handle (data : list entry) (context : Context)
  : M (list (output L)) :=
  run enter c_handle;
  do model_input <- preprocess data;
  do model_out <- inference model_input;
  postprocess model_out.

(** The module-level [handle]: [data] is the request batch or [None], the
    result a list or [None]. *)
Definition handle (data : option (list entry)) (context : Context)
  : M (option (list (output L))) :=
  do s <- self;
  run (if negb (initialized s) then initialize context else ret tt);
  match data with
  | None => ret None
  | Some batch =>
      do out <- ModelHandler_handle batch context;
      ret (Some out)
  end.

End Handler.

(** ** Observing a run *)

(** The events a computation added, from the world before it and the world
    after it (the trace only grows at its end). *)
Definition new_events (w w' : World) : list event :=
  drop (length (trace w)) (trace w').

(** How often a method was entered. *)
Definition is_entry (f : callee) (e : event) : bool :=
  match e with
  | Enter g => bool_decide (g = f)
  | Log _ _ _ => false
  end.

Definition entries (f : callee) (evs : list event) : nat :=
  length (List.filter (is_entry f) evs).

(** One call of the module-level [handle] by the server, with the file
    system as it is at that moment; and the server making such calls one
    after the other, whatever each of them returns or raises. *)
Record call (L : Libs) : Type := {
  call_fs : FileSystem;
  call_data : option (list entry);
  call_context : Context;
}.
Arguments call_fs {L} c.
Arguments call_data {L} c.
Arguments call_context {L} c.

Fixpoint serve (L : Libs) (calls : list (call L)) (w : World) : World :=
  match calls with
  | [] => w
  | c :: calls' =>
      serve L calls'
        (snd (handle (call_fs c) L (call_data c) (call_context c) w))
  end.

(** ** Concrete surroundings, to run the handler on examples *)

(** A pattern made of plain characters and [*] against a path, character by
    character: [*] matches within one path component, and not a leading
    dot.  That is [glob] for the patterns and paths of the examples below
    (no character class, no doubled slash); the statements are about any
    [FileSystem], not about this matcher. *)
Fixpoint wildcard (pattern : string) (first : bool) : string -> bool :=
  match pattern with
  | EmptyString => fun s => String.eqb s ""
  | String "*"%char pattern' =>
      fun s =>
        if first && String.prefix "." s then false
        else
          (fix star (s : string) : bool :=
             wildcard pattern' false s ||
             match s with
             | String c s' => negb (Ascii.eqb c "/") && star s'
             | EmptyString => false
             end) s
  | String p pattern' =>
      fun s =>
        match s with
        | String c s' => Ascii.eqb p c && wildcard pattern' (Ascii.eqb p "/") s'
        | EmptyString => false
        end
  end.

Inductive node : Type :=
| Directory
| RegularFile (content : option jval).

(** The file system holding the given paths, listed in the given order; the
    content of a regular file is the JSON document it holds, if it holds
    one. *)
Definition fs_of (files : list (string * node)) : FileSystem :=
  let table : gmap string node := list_to_map files in
  {| fs_glob pattern := List.filter (wildcard pattern true) (files.*1);
     fs_isfile path :=
       match table !! path with
       | Some (RegularFile _) => true
       | _ => false
       end;
     fs_load_json path :=
       match table !! path with
       | Some (RegularFile (Some j)) => Ok j
       | Some (RegularFile None) => Raise (LibraryError "JSONDecodeError" "")
       | Some Directory => Raise (LibraryError "IsADirectoryError" path)
       | None => Raise (LibraryError "FileNotFoundError" path)
       end |}.

(** A stand-in for the libraries, which reads no file.  Its extractor holds,
    as candidates, the texts loaded into it: with [reset], loading a document
    drops those of the documents before it; without, they stay.
    [get_n_best] gives the first [n] candidates. *)
Definition stub_libs (reset : bool) : Libs :=
  {| extractor := list text;
     keyphrases := list text;
     similarity := Z;
     pke_TopicalPageRank _ := Ok [];
     pke_load_document _ ext input _ _ :=
       match input with
       | PStr t => Ok ((if reset then [] else ext) ++ [t])
       | PFrame _ => Raise (LibraryError "TypeError" "")
       end;
     pke_candidate_selection _ ext _ := Ok ext;
     pke_candidate_weighting _ ext _ _ _ := Ok ext;
     pke_get_n_best _ ext n :=
       match n with
       | JNum z => Ok (take (Z.to_nat z) ext, ext)
       | _ => Raise (LibraryError "TypeError" "")
       end;
     stopwords_words _ := Ok (fun _ => Ok []);
     simple_preprocess _ t := Ok [t] |}.

Definition ranking_params : jval :=
  JObj (list_to_map
          [("grammar", JStr "NP: {<ADJ>*<NOUN|PROPN>}"); ("language", JStr "en");
           ("normalization", JStr "stemming"); ("window", JNum 10);
           ("max_count", JNum 3)]).

Definition context_of (model_dir : string) : Context :=
  {| system_properties := {[ "model_dir" := model_dir ]} |}.

(** The module when it has just been loaded. *)
Definition fresh_world : World :=
  {| _service := new_handler; trace := [] |}.

(** A handler that went through [initialize] for the given model type. *)
Definition world_of (type : string) : World :=
  {| _service :=
       {| initialized := true;
          model := Some ("/m/" +:+ type +:+ "-model");
          model_type := Some type;
          model_params := ranking_params |};
     trace := [] |}.

Definition ranking_dir : list (string * node) :=
  [("/m/TopicalPageRank-params.json", RegularFile (Some ranking_params));
   ("/m/TopicalPageRank-model", RegularFile None)].

(** A directory with two files matching the pattern. *)
Definition two_params_dir : list (string * node) :=
  [("/m/TopicalPageRank-params.json", RegularFile (Some ranking_params));
   ("/m/DocSim-params.json", RegularFile (Some (JObj ∅)));
   ("/m/TopicalPageRank-model", RegularFile None)].

(** A directory for a model type the handler does not know. *)
Definition unsupported_dir : list (string * node) :=
  [("/m/resnet-18-params.json", RegularFile (Some (JObj ∅)));
   ("/m/resnet-18-model", RegularFile None)].

(** A directory for the similarity model. *)
Definition docsim_dir : list (string * node) :=
  [("/m/DocSim-params.json", RegularFile (Some (JObj ∅)));
   ("/m/DocSim-model", RegularFile None)].

(** A directory with the parameters of the ranking model and no model. *)
Definition no_model_dir : list (string * node) :=
  [("/m/TopicalPageRank-params.json", RegularFile (Some ranking_params))].

(** A directory with the model of the ranking type and no parameters. *)
Definition only_model_dir : list (string * node) :=
  [("/m/TopicalPageRank-model", RegularFile None)].


(** Requests whose bodies are the ASCII texts [a] and [b]. *)
Definition request_a : entry := {[ "body" := [x61] ]}.
Definition request_b : entry := {[ "body" := [x62] ]}.

(** ** Names for what the statements below talk about *)

(** The pattern [initialize] globs for in the model directory, and the
    prefix it derives from a matching file name. *)
Definition params_pattern (model_dir : option string) : string :=
  format "{}/*{}" [py_str model_dir; "-params.json"].

Definition prefix_of (filename : string) : string :=
  split_head (basename filename) "-params.json".

(** The file system that differs from [fs] in one thing: globbing gives the
    one match [f]. *)
Definition with_only_match (f : string) (fs : FileSystem) : FileSystem :=
  {| fs_glob _ := [f];
     fs_isfile := fs_isfile fs;
     fs_load_json := fs_load_json fs |}.

(** An output of [preprocess] is the decoded body of a request entry. *)
Definition decoded (data : entry) (out : pyval) : Prop :=
  exists (body : list byte) (t : text),
    data !! "body" = Some body /\ decode body = Ok t /\ out = PStr t.

(** Results [ks] obtained by threading one state through the inputs [ts]
    in order: each step starts from the state the step before it left. *)
Fixpoint threaded {S T K : Type} (step : S -> T -> result (K * S)) (s : S)
    (ts : list T) (ks : list K) : Prop :=
  match ts, ks with
  | [], [] => True
  | t :: ts', k :: ks' =>
      exists s', step s t = Ok (k, s') /\ threaded step s' ts' ks'
  | _, _ => False
  end.

(** The parts of speech the ranking branch passes to the extractor, and the
    result of the body of its loop for a text, as a value: the world matters
    only through [self.model]. *)
Definition ranking_pos : gset string := {[ "NOUN"; "PROPN"; "ADJ" ]}.

Definition step_result (fs : FileSystem) (L : Libs)
    (grammar language normalization window max_count : jval) (w : World)
    (ext : extractor L) (text_input : pyval)
  : result (keyphrases L * extractor L) :=
  fst (ranking_step fs L grammar language normalization window max_count
         ranking_pos text_input ext w).

(** The five parameters the ranking branch reads. *)
Definition ranking_keys : list string :=
  ["grammar"; "language"; "normalization"; "window"; "max_count"].

(** The world [w] with its handler replaced and events added. *)
Definition after (w : World) (h : ModelHandler) (evs : list event) : World :=
  {| _service := h; trace := trace w ++ evs |}.

(** The events [get_model_files_prefix] logs before it indexes the matches. *)
Definition prefix_search_events (fs : FileSystem) (model_dir : option string)
  : list event :=
  [Enter c_get_model_files_prefix;
   Log INFO "checkpoint_prefix_regex: {}" (AStr (params_pattern model_dir));
   Log INFO "list_files: {}" (AList (fs_glob fs "/opt/ml/models/*"))].

(** The statements of [initialize] that come before its [try]: they set the
    flag, derive the prefix and read the parameters.  [initialize] is these
    followed by the [try] statement (lemma [initialize_try]). *)
Definition before_try (fs : FileSystem) (context : Context) : M string :=
  run enter c_initialize;
  run update (set_initialized true);
  let model_dir := system_properties context !! "model_dir" in
  do checkpoint_prefix <- get_model_files_prefix fs model_dir;
  run update (set_model_type (Some checkpoint_prefix));
  run read_model_params fs model_dir checkpoint_prefix;
  ret checkpoint_prefix.

(** The [except] clause of [initialize]. *)
Definition except_clause (e : exn) : M unit :=
  run logging ERROR "Exception: {}" (AExn e);
  raise MemoryError.

(** The events of serving a request: log records and the entries into
    [handle], [preprocess], [inference], [postprocess] and the extractor's
    constructor; not the entries into [initialize] and its helpers. *)
Definition serving_event (e : event) : bool :=
  match e with
  | Log _ _ _ => true
  | Enter f =>
      bool_decide
        (f ∈ [c_handle; c_preprocess; c_inference; c_postprocess;
              c_TopicalPageRank])
  end.

(** ** Predicates on computations *)

(** A computation is [quiet] when it leaves the world as it found it. *)
Definition quiet {A : Type} (m : M A) : Prop := forall w, snd (m w) = w.


(** A computation [emits] events of a kind when all it does to the world is
    to add events of that kind to the trace. *)
Definition emits {A : Type} (P : event -> bool) (m : M A) : Prop :=
  forall w, exists evs,
    snd (m w) = after w (_service w) evs /\ forallb P evs = true.

(** ** Further names for statements *)

(** The file system that differs from [fs] in one thing: [path] is a regular
    file. *)
Definition with_file (path : string) (fs : FileSystem) : FileSystem :=
  {| fs_glob := fs_glob fs;
     fs_isfile p := String.eqb p path || fs_isfile fs p;
     fs_load_json := fs_load_json fs |}.

(** [sub in s] for strings. *)
Fixpoint contains (s sub : string) : bool :=
  String.prefix sub s ||
  match s with
  | String _ s' => contains s' sub
  | EmptyString => false
  end.

(** The handler a successful [initialize] leaves. *)
Definition loaded_handler (dir prefix : string) (params : jval) : ModelHandler :=
  {| initialized := true;
     model := Some (posix_join dir (prefix +:+ "-model"));
     model_type := Some prefix;
     model_params := params |}.

(** The events of an [initialize] that got as far as reading the
    parameters. *)
Definition initialize_events (fs : FileSystem) (dir prefix : string)
  : list event :=
  Enter c_initialize :: prefix_search_events fs (Some dir) ++
  [Log INFO "Prefix for the model artifacts: {}" (AStr prefix);
   Enter c_read_model_params].

(** A computation goes [by_handler] when what it returns, and the handler
    it leaves, depend on the world only through the handler, not through
    the trace. *)
Definition by_handler {A : Type} (m : M A) : Prop :=
  forall w1 w2,
    _service w1 = _service w2 ->
    fst (m w1) = fst (m w2) /\ _service (snd (m w1)) = _service (snd (m w2)).

(** Whether the handler's type is one of the two the methods know. *)
Definition supported (h : ModelHandler) : bool :=
  py_eq (model_type h) "TopicalPageRank" || py_eq (model_type h) "DocSim".

(** An initialized ranking handler with the given parameters; and
    parameters that lack [window]. *)
Definition ranking_world (params : jval) : World :=
  {| _service :=
       {| initialized := true;
          model := Some "/m/TopicalPageRank-model";
          model_type := Some "TopicalPageRank";
          model_params := params |};
     trace := [] |}.

Definition params_without_window : gmap string jval :=
  list_to_map [("grammar", JStr "NP: {<ADJ>*<NOUN|PROPN>}");
               ("language", JStr "en"); ("normalization", JStr "stemming");
               ("max_count", JNum 3)].

Definition is_keyphrases {L : Libs} (o : output L) : bool :=
  match o with
  | Keyphrases _ => true
  | Similarities _ => false
  end.

(** The libraries answer the same on two file systems, the topic model
    being the one at [lda_model]. *)
Definition same_library_answers (L : Libs) (lda_model : option string)
    (fs fs' : FileSystem) : Prop :=
  pke_TopicalPageRank L fs = pke_TopicalPageRank L fs' /\
  (forall ext input language normalization,
     pke_load_document L fs ext input language normalization =
     pke_load_document L fs' ext input language normalization) /\
  (forall ext grammar,
     pke_candidate_selection L fs ext grammar =
     pke_candidate_selection L fs' ext grammar) /\
  (forall ext window pos,
     pke_candidate_weighting L fs ext window pos lda_model =
     pke_candidate_weighting L fs' ext window pos lda_model) /\
  (forall ext n, pke_get_n_best L fs ext n = pke_get_n_best L fs' ext n) /\
  stopwords_words L fs = stopwords_words L fs' /\
  (forall t, simple_preprocess L fs t = simple_preprocess L fs' t).

(** Two computations [agree] on a handler when, started from a world with
    that handler, they return the same, leave the same world, and leave the
    handler as it was. *)
Definition agree {A : Type} (h : ModelHandler) (m m' : M A) : Prop :=
  forall w, _service w = h -> m w = m' w /\ _service (snd (m w)) = h.

(** A stand-in for the libraries that reads a file: as [stub_libs false],
    but [candidate_weighting] opens the topic model at the path it is given
    and raises when that is no file. *)
Definition disk_libs : Libs :=
  {| extractor := list text;
     keyphrases := list text;
     similarity := Z;
     pke_TopicalPageRank _ := Ok [];
     pke_load_document fs := pke_load_document (stub_libs false) fs;
     pke_candidate_selection _ ext _ := Ok ext;
     pke_candidate_weighting fs ext _ _ lda_model :=
       match lda_model with
       | Some path =>
           if fs_isfile fs path then Ok ext
           else Raise (LibraryError "FileNotFoundError" path)
       | None => Ok ext
       end;
     pke_get_n_best fs := pke_get_n_best (stub_libs false) fs;
     stopwords_words _ := Ok (fun _ => Ok []);
     simple_preprocess _ t := Ok [t] |}.
(** * Properties *)

(** ** Running the monad *)

Lemma py_eq_true (x : option string) (s : string) :
  x = Some s -> py_eq x s = true.
Proof. intros ->. apply String.eqb_refl. Qed.

Lemma py_eq_false (x : option string) (s : string) :
  x <> Some s -> py_eq x s = false.
Proof.
  destruct x as [t|]; simpl; [|reflexivity].
  intros Hne. apply String.eqb_neq. congruence.
Qed.

Ltac unfold_monad :=
  cbv [bind ret raise lift try_except self update emit logging enter].

Lemma quiet_ret {A : Type} (a : A) : quiet (ret a).
Proof. intros w. reflexivity. Qed.

Lemma quiet_raise {A : Type} (e : exn) : quiet (@raise A e).
Proof. intros w. reflexivity. Qed.

Lemma quiet_lift {A : Type} (r : result A) : quiet (lift r).
Proof. intros w. reflexivity. Qed.

Lemma quiet_self : quiet self.
Proof. intros w. reflexivity. Qed.

Lemma quiet_bind {A B : Type} (m : M A) (k : A -> M B) :
  quiet m -> (forall a, quiet (k a)) -> quiet (bind m k).
Proof.
  intros Hm Hk w. unfold bind.
  specialize (Hm w). destruct (m w) as [[a|e] w1]; simpl in Hm; subst w1.
  - apply Hk.
  - reflexivity.
Qed.

Create HintDb quiet.
#[export] Hint Resolve quiet_ret quiet_raise quiet_lift quiet_self : quiet.

Ltac quiet_steps :=
  repeat first
    [ apply quiet_ret | apply quiet_raise | apply quiet_lift | apply quiet_self
    | apply quiet_bind; [|intros ?]
    | solve [eauto with quiet] ].

(** What a quiet computation returns, with the world put back. *)
Lemma quiet_run {A : Type} (m : M A) (w : World) :
  quiet m -> m w = (fst (m w), w).
Proof. intros Hm. specialize (Hm w). destruct (m w); simpl in *. congruence. Qed.

Lemma new_events_app (w : World) (s : ModelHandler) (evs : list event) :
  new_events w {| _service := s; trace := trace w ++ evs |} = evs.
Proof. unfold new_events. simpl. apply drop_app_length. Qed.

(** ** The loops leave the world alone *)

Lemma quiet_preprocess_loop (request : list entry) (text_list : list pyval) :
  quiet (preprocess_loop request text_list).
Proof.
  revert text_list.
  induction request as [|data request IH]; intros text_list; simpl.
  - apply quiet_ret.
  - apply quiet_bind; [destruct (data !! "body"); auto with quiet|].
    intros body. apply quiet_bind; auto with quiet.
Qed.

Lemma quiet_ranking_step (fs : FileSystem) (L : Libs) (g l n wd mc : jval)
    (pos : gset string) (text_input : pyval) (ext : extractor L) :
  quiet (ranking_step fs L g l n wd mc pos text_input ext).
Proof. unfold ranking_step. quiet_steps. Qed.

Lemma quiet_ranking_loop (fs : FileSystem) (L : Libs) (g l n wd mc : jval)
    (pos : gset string) (model_input : list pyval) (ext : extractor L)
    (phrases_list : list (output L)) :
  quiet (ranking_loop fs L g l n wd mc pos model_input ext phrases_list).
Proof.
  revert ext phrases_list.
  induction model_input as [|text_input model_input IH]; intros ext acc; simpl.
  - apply quiet_ret.
  - apply quiet_bind; [apply quiet_ranking_step|]. intros best. apply IH.
Qed.

Lemma quiet_filter_words (stoplist tokens : list text) :
  quiet (filter_words stoplist tokens).
Proof.
  induction tokens as [|w tokens IH]; simpl.
  - apply quiet_ret.
  - apply quiet_bind.
    + destruct (bool_decide (w ∈ stoplist)); quiet_steps.
    + intros keep. quiet_steps; exact IH.
Qed.

Lemma quiet_docsim_rows (fs : FileSystem) (L : Libs) (stoplist : list text)
    (rows : list (list text)) (similarities : list (similarity L)) :
  quiet (docsim_rows fs L stoplist rows similarities).
Proof.
  revert similarities.
  induction rows as [|row rows IH]; intros similarities; simpl.
  - apply quiet_ret.
  - quiet_steps; first [apply quiet_filter_words | apply IH].
Qed.

Lemma quiet_docsim_loop (fs : FileSystem) (L : Libs) (stoplist : list text)
    (model_input : list pyval) (acc : list (output L)) :
  quiet (docsim_loop fs L stoplist model_input acc).
Proof.
  revert acc.
  induction model_input as [|text_input model_input IH]; intros acc; simpl.
  - apply quiet_ret.
  - quiet_steps; first [apply quiet_docsim_rows | apply IH].
Qed.

#[export] Hint Resolve quiet_preprocess_loop quiet_ranking_loop
  quiet_filter_words quiet_docsim_rows quiet_docsim_loop : quiet.

(** ** Model types outside the two recognised ones *)

(** ** Model types outside the two recognised ones *)

(** C9.  When [model_type] is neither ["TopicalPageRank"] nor ["DocSim"]
    (also when it is still [None]), each of [preprocess], [inference] and
    [postprocess] raises the [RuntimeError] that says the model is not
    supported and names it, on every argument. *)
Theorem unsupported_model_type_raises (fs : FileSystem) (L : Libs) (w : World)
    (request : list entry) (model_input : list pyval)
    (inference_output : list (output L)) :
  model_type (_service w) <> Some "TopicalPageRank" ->
  model_type (_service w) <> Some "DocSim" ->
  let e :=
    RuntimeError
      ("Model " +:+ py_str (model_type (_service w)) +:+ " not supported!") in
  fst (preprocess request w) = Raise e /\
  fst (inference fs L model_input w) = Raise e /\
  fst (postprocess L inference_output w) = Raise e.
Proof.
  intros H1 H2 e.
  apply py_eq_false in H1, H2.
  unfold preprocess, inference, postprocess. unfold_monad. simpl.
  rewrite H1, H2. simpl. auto.
Qed.

(** A handler whose model type is [resnet-18]. *)
Lemma unsupported_model_type_raises_witness :
  fst (preprocess [request_a] (world_of "resnet-18")) =
    Raise (RuntimeError "Model resnet-18 not supported!") /\
  fst (inference (fs_of unsupported_dir) (stub_libs false) [PStr [97%N]]
         (world_of "resnet-18")) =
    Raise (RuntimeError "Model resnet-18 not supported!") /\
  fst (postprocess (stub_libs false) [] (world_of "resnet-18")) =
    Raise (RuntimeError "Model resnet-18 not supported!").
Proof.
  apply (unsupported_model_type_raises (fs_of unsupported_dir)
           (stub_libs false) (world_of "resnet-18")
           [request_a] [PStr [97%N]] []); simpl; congruence.
Defined.

(** ** What [initialize] does, step by step *)

Lemma after_after (w : World) (h1 h2 : ModelHandler) (e1 e2 : list event) :
  after (after w h1 e1) h2 e2 = after w h2 (e1 ++ e2).
Proof. unfold after. simpl. rewrite app_assoc. reflexivity. Qed.

Lemma after_nil (w : World) : after w (_service w) [] = w.
Proof. unfold after. rewrite app_nil_r. destruct w; reflexivity. Qed.

Lemma get_model_files_prefix_run (fs : FileSystem) (model_dir : option string)
    (w : World) :
  get_model_files_prefix fs model_dir w =
  match fs_glob fs (params_pattern model_dir) with
  | [] =>
      (Raise IndexError,
       after w (_service w) (prefix_search_events fs model_dir))
  | f :: _ =>
      (Ok (prefix_of f),
       after w (_service w)
         (prefix_search_events fs model_dir ++
          [Log INFO "Prefix for the model artifacts: {}" (AStr (prefix_of f))]))
  end.
Proof.
  unfold get_model_files_prefix, params_pattern, prefix_of, after,
    prefix_search_events.
  unfold_monad. cbv [_service trace index0].
  destruct (fs_glob fs _) as [|f rest]; rewrite <- ?app_assoc; reflexivity.
Qed.

Lemma read_model_params_run (fs : FileSystem) (d cp : string) (w : World) :
  read_model_params fs (Some d) cp w =
  let path := posix_join d (cp +:+ "-params.json") in
  if fs_isfile fs path then
    match fs_load_json fs path with
    | Ok params =>
        (Ok tt,
         after w (set_model_params params (_service w))
           [Enter c_read_model_params])
    | Raise e => (Raise e, after w (_service w) [Enter c_read_model_params])
    end
  else
    (Raise (RuntimeError ("Missing " +:+ path +:+ " file.")),
     after w (_service w) [Enter c_read_model_params]).
Proof.
  unfold read_model_params, after, path_join. unfold_monad.
  cbv [_service trace]. cbv zeta.
  change (format "{}-{}" [cp; "params.json"]) with (cp +:+ "-params.json").
  destruct (fs_isfile fs _); simpl; [|reflexivity].
  destruct (fs_load_json fs _); reflexivity.
Qed.

Lemma read_model_params_no_dir (fs : FileSystem) (cp : string) (w : World) :
  read_model_params fs None cp w =
  (Raise TypeError, after w (_service w) [Enter c_read_model_params]).
Proof. reflexivity. Qed.

Lemma load_model_run (fs : FileSystem) (d cp : string) (w : World) :
  load_model fs (Some d) cp w =
  let type := model_type (_service w) in
  if py_eq type "TopicalPageRank" || py_eq type "DocSim" then
    let path := posix_join d (cp +:+ "-model") in
    let w' := after w (set_model (Some path) (_service w)) [] in
    if fs_isfile fs path then (Ok tt, w')
    else (Raise (RuntimeError ("Missing " +:+ path +:+ " file.")), w')
  else
    (Raise (RuntimeError ("Model " +:+ py_str type +:+ " not supported!")),
     after w (_service w)
       [Log ERROR "Model {} not supported!" (AStr (py_str type))]).
Proof.
  unfold load_model, after, path_join. unfold_monad.
  cbv [_service trace]. cbv zeta.
  change (format "{}-{}" [cp; "model"]) with (cp +:+ "-model").
  destruct (py_eq _ _ || py_eq _ _); [|reflexivity].
  rewrite app_nil_r. destruct (fs_isfile fs _); reflexivity.
Qed.

(** The whole of [initialize] for a context that gives a model directory:
    the result and the world it leaves, by what the file system answers. *)
Lemma initialize_run (fs : FileSystem) (context : Context) (dir : string)
    (w : World) :
  system_properties context !! "model_dir" = Some dir ->
  initialize fs context w =
  let h1 := set_initialized true (_service w) in
  let search := Enter c_initialize :: prefix_search_events fs (Some dir) in
  match fs_glob fs (params_pattern (Some dir)) with
  | [] => (Raise IndexError, after w h1 search)
  | f :: _ =>
      let cp := prefix_of f in
      let h2 := set_model_type (Some cp) h1 in
      let evs :=
        search ++
        [Log INFO "Prefix for the model artifacts: {}" (AStr cp);
         Enter c_read_model_params] in
      let params_path := posix_join dir (cp +:+ "-params.json") in
      if fs_isfile fs params_path then
        match fs_load_json fs params_path with
        | Raise e => (Raise e, after w h2 evs)
        | Ok params =>
            let h3 := set_model_params params h2 in
            if String.eqb cp "TopicalPageRank" || String.eqb cp "DocSim" then
              let model_path := posix_join dir (cp +:+ "-model") in
              let h4 := set_model (Some model_path) h3 in
              if fs_isfile fs model_path then (Ok tt, after w h4 evs)
              else
                (Raise (WithContext
                          (RuntimeError ("Missing " +:+ model_path +:+ " file."))
                          MemoryError),
                 after w h4
                   (evs ++
                    [Log ERROR "Exception: {}"
                       (AExn (RuntimeError
                                ("Missing " +:+ model_path +:+ " file.")))]))
            else
              (Raise (WithContext
                        (RuntimeError ("Model " +:+ cp +:+ " not supported!"))
                        MemoryError),
               after w h3
                 (evs ++
                  [Log ERROR "Model {} not supported!" (AStr cp);
                   Log ERROR "Exception: {}"
                     (AExn (RuntimeError
                              ("Model " +:+ cp +:+ " not supported!")))]))
        end
      else
        (Raise (RuntimeError ("Missing " +:+ params_path +:+ " file.")),
         after w h2 evs)
  end.
Proof.
  intros Hdir. unfold initialize. rewrite Hdir.
  unfold bind at 1. unfold enter at 1, emit at 1.
  unfold bind at 1. unfold update at 1.
  unfold bind at 1. rewrite get_model_files_prefix_run.
  destruct (fs_glob fs _) as [|f rest];
    [cbv [after _service trace]; rewrite <- !app_assoc; reflexivity|].
  unfold bind at 1. unfold update at 1.
  unfold bind at 1. rewrite read_model_params_run. cbv zeta.
  destruct (fs_isfile fs (posix_join dir (prefix_of f +:+ "-params.json")));
    [|cbv [after _service trace]; rewrite <- !app_assoc; reflexivity].
  destruct (fs_load_json fs _) as [params|e];
    [|cbv [after _service trace]; rewrite <- !app_assoc; reflexivity].
  unfold try_except. rewrite load_model_run. cbv zeta.
  cbv [after _service trace model_type set_model_params set_model_type
       set_initialized py_eq py_str].
  destruct (String.eqb (prefix_of f) "TopicalPageRank" ||
            String.eqb (prefix_of f) "DocSim").
  - destruct (fs_isfile fs _); unfold_monad; cbv [_service trace];
      rewrite <- !app_assoc; reflexivity.
  - unfold_monad; cbv [_service trace]; rewrite <- !app_assoc; reflexivity.
Qed.

Lemma initialize_run_no_dir (fs : FileSystem) (context : Context) (w : World) :
  system_properties context !! "model_dir" = None ->
  initialize fs context w =
  let h1 := set_initialized true (_service w) in
  let search := Enter c_initialize :: prefix_search_events fs None in
  match fs_glob fs (params_pattern None) with
  | [] => (Raise IndexError, after w h1 search)
  | f :: _ =>
      (Raise TypeError,
       after w (set_model_type (Some (prefix_of f)) h1)
         (search ++
          [Log INFO "Prefix for the model artifacts: {}" (AStr (prefix_of f));
           Enter c_read_model_params]))
  end.
Proof.
  intros Hdir. unfold initialize. rewrite Hdir.
  unfold bind at 1. unfold enter at 1, emit at 1.
  unfold bind at 1. unfold update at 1.
  unfold bind at 1. rewrite get_model_files_prefix_run.
  destruct (fs_glob fs _) as [|f rest];
    [cbv [after _service trace]; rewrite <- !app_assoc; reflexivity|].
  unfold bind at 1. unfold update at 1.
  unfold bind at 1. rewrite read_model_params_no_dir.
  cbv [after _service trace]; rewrite <- !app_assoc; reflexivity.
Qed.

(** ** Failures of [initialize] *)

(** C5, as the code has it.  When the prefix derived from the first matching
    file name is neither recognised identifier, and the parameter file of
    that prefix was read, [initialize] raises a [MemoryError], which has no
    message of its own; the [RuntimeError] that names the unsupported model
    is raised inside the [try], caught there and logged, and it is the
    context of the [MemoryError]. *)
Theorem unsupported_prefix_raises_MemoryError (fs : FileSystem)
    (context : Context) (dir : string) (w : World) (f : string)
    (rest : list string) (params : jval) :
  system_properties context !! "model_dir" = Some dir ->
  fs_glob fs (params_pattern (Some dir)) = f :: rest ->
  prefix_of f <> "TopicalPageRank" ->
  prefix_of f <> "DocSim" ->
  fs_isfile fs (posix_join dir (prefix_of f +:+ "-params.json")) = true ->
  fs_load_json fs (posix_join dir (prefix_of f +:+ "-params.json")) =
    Ok params ->
  fst (initialize fs context w) =
    Raise (WithContext
             (RuntimeError ("Model " +:+ prefix_of f +:+ " not supported!"))
             MemoryError) /\
  new_events w (snd (initialize fs context w)) =
    Enter c_initialize :: prefix_search_events fs (Some dir) ++
    [Log INFO "Prefix for the model artifacts: {}" (AStr (prefix_of f));
     Enter c_read_model_params;
     Log ERROR "Model {} not supported!" (AStr (prefix_of f));
     Log ERROR "Exception: {}"
       (AExn (RuntimeError ("Model " +:+ prefix_of f +:+ " not supported!")))].
Proof.
  intros Hdir Hglob Hr Hs Hfile Hload.
  rewrite (initialize_run fs context dir w Hdir), Hglob. cbv zeta.
  rewrite Hfile, Hload.
  apply String.eqb_neq in Hr, Hs. rewrite Hr, Hs. simpl fst. simpl snd.
  split; [reflexivity|].
  unfold after. rewrite new_events_app. cbn [app].
  rewrite <- ?app_assoc. reflexivity.
Qed.

(** The directory of the unknown model type [resnet-18]. *)
Lemma unsupported_prefix_raises_MemoryError_witness :
  fst (initialize (fs_of unsupported_dir) (context_of "/m") fresh_world) =
    Raise (WithContext (RuntimeError "Model resnet-18 not supported!")
             MemoryError) /\
  new_events fresh_world
    (snd (initialize (fs_of unsupported_dir) (context_of "/m") fresh_world)) =
    [Enter c_initialize; Enter c_get_model_files_prefix;
     Log INFO "checkpoint_prefix_regex: {}" (AStr "/m/*-params.json");
     Log INFO "list_files: {}" (AList []);
     Log INFO "Prefix for the model artifacts: {}" (AStr "resnet-18");
     Enter c_read_model_params;
     Log ERROR "Model {} not supported!" (AStr "resnet-18");
     Log ERROR "Exception: {}"
       (AExn (RuntimeError "Model resnet-18 not supported!"))].
Proof.
  apply (unsupported_prefix_raises_MemoryError (fs_of unsupported_dir)
           (context_of "/m") "/m" fresh_world "/m/resnet-18-params.json" []
           (JObj ∅));
    vm_compute; first [reflexivity | discriminate].
Defined.

(** C5, as the claim states it, fails: for a directory that holds
    [resnet-18-params.json], what [initialize] raises is a [MemoryError];
    it is not the [RuntimeError] that names the model, which is only its
    context. *)
Lemma unsupported_prefix_error_is_MemoryError :
  fst (initialize (fs_of unsupported_dir) (context_of "/m") fresh_world) =
    Raise (WithContext (RuntimeError "Model resnet-18 not supported!")
             MemoryError) /\
  forall msg : string,
    fst (initialize (fs_of unsupported_dir) (context_of "/m") fresh_world) <>
      Raise (RuntimeError msg).
Proof.
  assert (H : fst (initialize (fs_of unsupported_dir) (context_of "/m")
                     fresh_world) =
              Raise (WithContext (RuntimeError "Model resnet-18 not supported!")
                       MemoryError))
    by (vm_compute; reflexivity).
  split; [exact H|]. intros msg. rewrite H. discriminate.
Qed.




(** ** The prefix and the files that match *)

(** What [initialize] returns is decided by the first match alone. *)
Lemma initialize_first_match_only (fs : FileSystem) (context : Context)
    (w : World) (f : string) (rest : list string) :
  fs_glob fs (params_pattern (system_properties context !! "model_dir")) =
    f :: rest ->
  fst (initialize fs context w) =
    fst (initialize (with_only_match f fs) context w) /\
  _service (snd (initialize fs context w)) =
    _service (snd (initialize (with_only_match f fs) context w)).
Proof.
  intros Hglob.
  destruct (system_properties context !! "model_dir") as [dir|] eqn:Hdir.
  - rewrite (initialize_run fs context dir w Hdir), Hglob.
    rewrite (initialize_run (with_only_match f fs) context dir w Hdir).
    cbv zeta. cbn [fs_glob fs_isfile fs_load_json with_only_match].
    destruct (fs_isfile fs _); [|split; reflexivity].
    destruct (fs_load_json fs _) as [params|e]; [|split; reflexivity].
    destruct (String.eqb _ _ || String.eqb _ _);
      [destruct (fs_isfile fs _)|]; split; reflexivity.
  - rewrite (initialize_run_no_dir fs context w Hdir), Hglob.
    rewrite (initialize_run_no_dir (with_only_match f fs) context w Hdir).
    split; reflexivity.
Qed.

Lemma initialize_model_type (fs : FileSystem) (context : Context) (w : World)
    (f : string) (rest : list string) :
  fs_glob fs (params_pattern (system_properties context !! "model_dir")) =
    f :: rest ->
  model_type (_service (snd (initialize fs context w))) = Some (prefix_of f).
Proof.
  intros Hglob.
  destruct (system_properties context !! "model_dir") as [dir|] eqn:Hdir.
  - rewrite (initialize_run fs context dir w Hdir), Hglob. cbv zeta.
    destruct (fs_isfile fs _); [|reflexivity].
    destruct (fs_load_json fs _) as [params|e]; [|reflexivity].
    destruct (String.eqb _ _ || String.eqb _ _);
      [destruct (fs_isfile fs _)|]; reflexivity.
  - rewrite (initialize_run_no_dir fs context w Hdir), Hglob. reflexivity.
Qed.

(** C8, as the code has it.  With no file matching the pattern,
    [initialize] raises [IndexError] (from indexing the empty list of
    matches).  With one match or more, the prefix comes from the first match
    in the order [glob] gives: that is what [get_model_files_prefix] returns
    and what [model_type] holds after [initialize]; further matches are no
    failure and change nothing, [initialize] returning what it returns when
    the first match is the only one. *)
Theorem prefix_from_first_match (fs : FileSystem) (context : Context)
    (w : World) :
  let model_dir := system_properties context !! "model_dir" in
  (fs_glob fs (params_pattern model_dir) = [] ->
   fst (initialize fs context w) = Raise IndexError) /\
  (forall (f : string) (rest : list string),
     fs_glob fs (params_pattern model_dir) = f :: rest ->
     fst (get_model_files_prefix fs model_dir w) = Ok (prefix_of f) /\
     model_type (_service (snd (initialize fs context w))) = Some (prefix_of f) /\
     fst (initialize fs context w) =
       fst (initialize (with_only_match f fs) context w)).
Proof.
  intros model_dir. subst model_dir. split.
  - intros Hglob.
    destruct (system_properties context !! "model_dir") as [dir|] eqn:Hdir.
    + rewrite (initialize_run fs context dir w Hdir), Hglob. reflexivity.
    + rewrite (initialize_run_no_dir fs context w Hdir), Hglob. reflexivity.
  - intros f rest Hglob.
    split; [rewrite get_model_files_prefix_run, Hglob; reflexivity|].
    split; [exact (initialize_model_type fs context w f rest Hglob)|].
    exact (proj1 (initialize_first_match_only fs context w f rest Hglob)).
Qed.

(** The empty directory, and the directory with two matching files. *)
Lemma prefix_from_first_match_witness :
  fst (initialize (fs_of []) (context_of "/m") fresh_world) = Raise IndexError /\
  fst (get_model_files_prefix (fs_of two_params_dir) (Some "/m") fresh_world) =
    Ok "TopicalPageRank" /\
  model_type
    (_service (snd (initialize (fs_of two_params_dir) (context_of "/m")
                      fresh_world))) = Some "TopicalPageRank".
Proof.
  pose proof (prefix_from_first_match (fs_of []) (context_of "/m")
                fresh_world) as [Hnone _].
  pose proof (prefix_from_first_match (fs_of two_params_dir) (context_of "/m")
                fresh_world) as [_ Hsome].
  specialize (Hsome "/m/TopicalPageRank-params.json"
                ["/m/DocSim-params.json"] eq_refl) as (Hp & Ht & _).
  split; [exact (Hnone eq_refl)|]. split; [exact Hp|exact Ht].
Defined.

(** C8, as the claim states it, fails for several matches: in a directory
    with two files matching the pattern, [initialize] succeeds, with the
    prefix of the first. *)
Lemma two_matches_are_accepted :
  fs_glob (fs_of two_params_dir) (params_pattern (Some "/m")) =
    ["/m/TopicalPageRank-params.json"; "/m/DocSim-params.json"] /\
  fst (initialize (fs_of two_params_dir) (context_of "/m") fresh_world) = Ok tt /\
  model_type
    (_service (snd (initialize (fs_of two_params_dir) (context_of "/m")
                      fresh_world))) = Some "TopicalPageRank".
Proof. vm_compute. repeat split; reflexivity. Qed.

(** ** Serving requests adds events and changes nothing else *)

Lemma emits_quiet {A : Type} (P : event -> bool) (m : M A) :
  quiet m -> emits P m.
Proof.
  intros Hm w. exists []. rewrite Hm, after_nil. split; reflexivity.
Qed.

Lemma emits_emit (P : event -> bool) (e : event) :
  P e = true -> emits P (emit e).
Proof.
  intros He w. exists [e]. split; [reflexivity|]. simpl. rewrite He. reflexivity.
Qed.

Lemma emits_bind {A B : Type} (P : event -> bool) (m : M A) (k : A -> M B) :
  emits P m -> (forall a, emits P (k a)) -> emits P (bind m k).
Proof.
  intros Hm Hk w. unfold bind.
  destruct (Hm w) as (evs & Hw & Hevs).
  destruct (m w) as [[a|e] w1]; simpl in Hw; subst w1.
  - destruct (Hk a (after w (_service w) evs)) as (evs' & Hw' & Hevs').
    exists (evs ++ evs'). rewrite Hw', after_after. split; [reflexivity|].
    rewrite forallb_app, Hevs, Hevs'. reflexivity.
  - exists evs. split; [reflexivity|exact Hevs].
Qed.

Ltac emits_steps :=
  repeat first
    [ apply emits_bind; [|intros ?]
    | apply emits_emit; reflexivity
    | apply emits_quiet; solve [quiet_steps] ].

Lemma emits_preprocess (request : list entry) :
  emits serving_event (preprocess request).
Proof.
  unfold preprocess, enter, logging. emits_steps.
  destruct (py_eq _ _ || py_eq _ _); emits_steps.
Qed.

Lemma emits_inference (fs : FileSystem) (L : Libs) (model_input : list pyval) :
  emits serving_event (inference fs L model_input).
Proof.
  unfold inference, enter, logging. emits_steps.
  destruct (py_eq _ _); [emits_steps|].
  destruct (py_eq _ _); emits_steps.
Qed.

Lemma emits_postprocess (L : Libs) (inference_output : list (output L)) :
  emits serving_event (postprocess L inference_output).
Proof.
  unfold postprocess, enter, logging. emits_steps.
  destruct (py_eq _ _ || py_eq _ _); emits_steps.
Qed.

Lemma emits_ModelHandler_handle (fs : FileSystem) (L : Libs) (data : list entry)
    (context : Context) :
  emits serving_event (ModelHandler_handle fs L data context).
Proof.
  unfold ModelHandler_handle, enter.
  apply emits_bind; [apply emits_emit; reflexivity|intros _].
  apply emits_bind; [apply emits_preprocess|intros model_input].
  apply emits_bind; [apply emits_inference|intros model_out].
  apply emits_postprocess.
Qed.

(** On an initialized handler the module-level [handle] goes straight to the
    request. *)
Lemma handle_initialized (fs : FileSystem) (L : Libs)
    (data : option (list entry)) (context : Context) (w : World) :
  initialized (_service w) = true ->
  handle fs L data context w =
  match data with
  | None => (Ok None, w)
  | Some batch =>
      (do out <- ModelHandler_handle fs L batch context; ret (Some out)) w
  end.
Proof.
  intros Hflag. unfold handle. unfold bind at 1. unfold self at 1.
  rewrite Hflag. simpl negb. cbv iota. unfold bind at 1. unfold ret at 1.
  destruct data; reflexivity.
Qed.

Lemma emits_handle_initialized (fs : FileSystem) (L : Libs)
    (data : option (list entry)) (context : Context) (w : World) :
  initialized (_service w) = true ->
  exists evs,
    snd (handle fs L data context w) = after w (_service w) evs /\
    forallb serving_event evs = true.
Proof.
  intros Hflag. rewrite (handle_initialized fs L data context w Hflag).
  destruct data as [batch|].
  - assert (He : emits serving_event
                   (do out <- ModelHandler_handle fs L batch context;
                    ret (Some out))).
    { apply emits_bind; [apply emits_ModelHandler_handle|].
      intros out. apply emits_quiet, quiet_ret. }
    exact (He w).
  - exists []. rewrite after_nil. split; reflexivity.
Qed.

Lemma serving_events_no_initialize (evs : list event) :
  forallb serving_event evs = true -> entries c_initialize evs = 0.
Proof.
  unfold entries. induction evs as [|e evs IH]; simpl; [reflexivity|].
  intros H. apply andb_prop in H as [He Hevs].
  destruct e as [lvl fmt arg|f]; simpl; [exact (IH Hevs)|].
  destruct f; simpl in He; try discriminate He; exact (IH Hevs).
Qed.

(** ** The flag, and what a failed [initialize] leaves behind *)

Lemma initialize_sets_flag (fs : FileSystem) (context : Context) (w : World) :
  initialized (_service (snd (initialize fs context w))) = true.
Proof.
  destruct (system_properties context !! "model_dir") as [dir|] eqn:Hdir.
  - rewrite (initialize_run fs context dir w Hdir). cbv zeta.
    destruct (fs_glob fs _) as [|f rest]; [reflexivity|].
    destruct (fs_isfile fs _); [|reflexivity].
    destruct (fs_load_json fs _) as [params|e]; [|reflexivity].
    destruct (String.eqb _ _ || String.eqb _ _);
      [destruct (fs_isfile fs _)|]; reflexivity.
  - rewrite (initialize_run_no_dir fs context w Hdir). cbv zeta.
    destruct (fs_glob fs _) as [|f rest]; reflexivity.
Qed.

Lemma serve_initialized (L : Libs) (calls : list (call L)) (w : World) :
  initialized (_service w) = true ->
  exists evs,
    serve L calls w = after w (_service w) evs /\
    forallb serving_event evs = true.
Proof.
  revert w. induction calls as [|c calls IH]; intros w Hflag; simpl.
  - exists []. rewrite after_nil. split; reflexivity.
  - destruct (emits_handle_initialized (call_fs c) L (call_data c)
                (call_context c) w Hflag) as (evs & -> & Hevs).
    destruct (IH (after w (_service w) evs) Hflag) as (evs' & -> & Hevs').
    exists (evs ++ evs'). rewrite after_after. split; [reflexivity|].
    rewrite forallb_app, Hevs, Hevs'. reflexivity.
Qed.

(** C10.  The first thing [initialize] does, after being entered, is to set
    the flag: the search for the prefix starts in a world where the flag is
    already set.  So whatever the file system holds, and whether [initialize]
    returns or raises, the handler is initialized afterwards; and in whatever
    calls of the module-level [handle] the server makes after that, on
    whatever file systems, [initialize] is not entered again and the
    handler's fields stay as the failed [initialize] left them. *)
Theorem failed_initialize_is_never_repeated (fs : FileSystem)
    (context : Context) (w : World) :
  let model_dir := system_properties context !! "model_dir" in
  let w1 := snd (initialize fs context w) in
  initialize fs context w =
    (do checkpoint_prefix <- get_model_files_prefix fs model_dir;
     run update (set_model_type (Some checkpoint_prefix));
     run read_model_params fs model_dir checkpoint_prefix;
     try_except (load_model fs model_dir checkpoint_prefix) except_clause)
      (after w (set_initialized true (_service w)) [Enter c_initialize]) /\
  initialized (_service w1) = true /\
  forall (L : Libs) (calls : list (call L)),
    _service (serve L calls w1) = _service w1 /\
    entries c_initialize (new_events w1 (serve L calls w1)) = 0.
Proof.
  intros model_dir w1. split; [reflexivity|].
  assert (Hflag : initialized (_service w1) = true)
    by apply initialize_sets_flag.
  split; [exact Hflag|]. intros L calls.
  destruct (serve_initialized L calls w1 Hflag) as (evs & -> & Hevs).
  split; [reflexivity|].
  unfold after. rewrite new_events_app.
  apply serving_events_no_initialize, Hevs.
Qed.

(** [initialize] is the statements before the [try], then the [try]. *)
Lemma initialize_try (fs : FileSystem) (context : Context) (w : World) :
  initialize fs context w =
  (do checkpoint_prefix <- before_try fs context;
   try_except
     (load_model fs (system_properties context !! "model_dir")
        checkpoint_prefix)
     except_clause) w.
Proof.
  unfold initialize, before_try, bind, enter, emit, update, ret.
  destruct (get_model_files_prefix fs _ _) as [[cp|e] w1]; [|reflexivity].
  destruct (read_model_params fs _ _ _) as [[[]|e] w2]; reflexivity.
Qed.

(** ** Failures of the artifact resolution *)

(** C7, as the code has it.  Whatever exception [e] the body of the [try]
    of [initialize] raises (the statements before it having run through),
    [initialize] raises a [MemoryError]: the same class for every cause, with
    no message of its own.  The cause is not lost, though: [e] is logged, and
    it is the context of the [MemoryError].  Nothing is tried again: the
    handler is left initialized, and a later call of the module-level
    [handle], on whatever file system, does not enter [initialize]. *)
Theorem artifact_resolution_failure_raises_MemoryError (fs : FileSystem)
    (context : Context) (w : World) (cp : string) (w1 : World) (e : exn)
    (w2 : World) :
  before_try fs context w = (Ok cp, w1) ->
  load_model fs (system_properties context !! "model_dir") cp w1 =
    (Raise e, w2) ->
  let w3 := after w2 (_service w2) [Log ERROR "Exception: {}" (AExn e)] in
  initialize fs context w = (Raise (WithContext e MemoryError), w3) /\
  initialized (_service w3) = true /\
  forall (fs' : FileSystem) (L : Libs) (data : option (list entry))
         (context' : Context),
    entries c_initialize
      (new_events w3 (snd (handle fs' L data context' w3))) = 0.
Proof.
  intros Hhead Hbody w3.
  assert (Hrun : initialize fs context w =
                 (Raise (WithContext e MemoryError), w3)).
  { rewrite initialize_try. unfold bind at 1. rewrite Hhead.
    unfold try_except. rewrite Hbody. reflexivity. }
  assert (Hflag : initialized (_service w3) = true).
  { pose proof (initialize_sets_flag fs context w) as H.
    rewrite Hrun in H. exact H. }
  split; [exact Hrun|]. split; [exact Hflag|].
  intros fs' L data context'.
  destruct (emits_handle_initialized fs' L data context' w3 Hflag)
    as (evs & -> & Hevs).
  unfold after at 1. rewrite new_events_app.
  apply serving_events_no_initialize, Hevs.
Qed.

(** Two causes, an unsupported model type and a missing model file: a
    [MemoryError] for both, each with its cause as context. *)
Lemma artifact_resolution_failure_raises_MemoryError_witness :
  fst (initialize (fs_of unsupported_dir) (context_of "/m") fresh_world) =
    Raise (WithContext (RuntimeError "Model resnet-18 not supported!")
             MemoryError) /\
  fst (initialize (fs_of no_model_dir) (context_of "/m") fresh_world) =
    Raise (WithContext (RuntimeError "Missing /m/TopicalPageRank-model file.")
             MemoryError).
Proof.
  split.
  - pose proof
      (artifact_resolution_failure_raises_MemoryError (fs_of unsupported_dir)
         (context_of "/m") fresh_world "resnet-18"
         (snd (before_try (fs_of unsupported_dir) (context_of "/m")
                 fresh_world))
         (RuntimeError "Model resnet-18 not supported!")
         (snd (load_model (fs_of unsupported_dir) (Some "/m") "resnet-18"
                 (snd (before_try (fs_of unsupported_dir) (context_of "/m")
                         fresh_world)))))
      as H.
    destruct H as [H _]; [vm_compute; reflexivity ..|].
    rewrite H. reflexivity.
  - pose proof
      (artifact_resolution_failure_raises_MemoryError (fs_of no_model_dir)
         (context_of "/m") fresh_world "TopicalPageRank"
         (snd (before_try (fs_of no_model_dir) (context_of "/m")
                 fresh_world))
         (RuntimeError "Missing /m/TopicalPageRank-model file.")
         (snd (load_model (fs_of no_model_dir) (Some "/m") "TopicalPageRank"
                 (snd (before_try (fs_of no_model_dir) (context_of "/m")
                         fresh_world)))))
      as H.
    destruct H as [H _]; [vm_compute; reflexivity ..|].
    rewrite H. reflexivity.
Defined.

(** C7, as the claim states it, fails in one point: the error that
    surfaces does carry detail of its cause.  An unsupported model type and
    a missing model file give two [MemoryError]s that differ, each holding
    the exception that caused it as its context. *)
Lemma artifact_resolution_failures_are_told_apart :
  fst (initialize (fs_of unsupported_dir) (context_of "/m") fresh_world) =
    Raise (WithContext (RuntimeError "Model resnet-18 not supported!")
             MemoryError) /\
  fst (initialize (fs_of no_model_dir) (context_of "/m") fresh_world) =
    Raise (WithContext (RuntimeError "Missing /m/TopicalPageRank-model file.")
             MemoryError) /\
  fst (initialize (fs_of unsupported_dir) (context_of "/m") fresh_world) <>
  fst (initialize (fs_of no_model_dir) (context_of "/m") fresh_world).
Proof.
  assert (H1 : fst (initialize (fs_of unsupported_dir) (context_of "/m")
                      fresh_world) =
               Raise (WithContext
                        (RuntimeError "Model resnet-18 not supported!")
                        MemoryError))
    by (vm_compute; reflexivity).
  assert (H2 : fst (initialize (fs_of no_model_dir) (context_of "/m")
                      fresh_world) =
               Raise (WithContext
                        (RuntimeError "Missing /m/TopicalPageRank-model file.")
                        MemoryError))
    by (vm_compute; reflexivity).
  split; [exact H1|]. split; [exact H2|].
  rewrite H1, H2. discriminate.
Qed.

(** ** What [preprocess] returns *)

Lemma preprocess_loop_spec (request : list entry) (text_list : list pyval)
    (w : World) (outs : list pyval) :
  fst (preprocess_loop request text_list w) = Ok outs <->
  exists new, outs = text_list ++ new /\ Forall2 decoded request new.
Proof.
  revert text_list.
  induction request as [|data request IH]; intros text_list; simpl.
  - split.
    + intros [= <-]. exists []. rewrite app_nil_r. split; constructor.
    + intros (new & -> & Hnew). inversion Hnew. rewrite app_nil_r. reflexivity.
  - unfold bind at 1.
    destruct (data !! "body") as [body|] eqn:Hbody.
    + unfold ret at 1, bind at 1, lift at 1.
      destruct (decode body) as [t|e] eqn:Hdecode.
      * rewrite IH. split.
        -- intros (new & -> & Hnew). exists (PStr t :: new).
           rewrite <- app_assoc. split; [reflexivity|].
           constructor; [|exact Hnew]. exists body, t. auto.
        -- intros (new & -> & Hnew).
           inversion Hnew as [|? out ? new' (body' & t' & Hb & Hd & ->) Hrest];
             subst.
           rewrite Hbody in Hb. injection Hb as <-.
           rewrite Hdecode in Hd. injection Hd as <-.
           exists new'. rewrite <- app_assoc. auto.
      * split; [discriminate|].
        intros (new & -> & Hnew).
        inversion Hnew as [|? out ? new' (body' & t' & Hb & Hd & ->) Hrest];
          subst.
        rewrite Hbody in Hb. injection Hb as <-. congruence.
    + unfold raise. split; [discriminate|].
      intros (new & -> & Hnew).
      inversion Hnew as [|? out ? new' (body' & t' & Hb & Hd & ->) Hrest];
        subst.
      congruence.
Qed.

Lemma decoded_not_frame (request : list entry) (outs : list pyval) :
  Forall2 decoded request outs -> Forall (fun v => is_frame v = false) outs.
Proof.
  induction 1 as [|data out request outs (body & t & _ & _ & ->) _ IH];
    constructor; [reflexivity|exact IH].
Qed.

(** C3, as the code has it.  For either supported model type, [preprocess]
    returns a list exactly when every request entry has a body that is
    well-formed UTF-8, and the list then holds the decoded texts of the
    entries, one per entry and in their order.  That is so for the
    similarity type as for the ranking type: no element is a frame. *)
Theorem preprocess_decodes_in_order (w : World) (request : list entry)
    (outs : list pyval) :
  model_type (_service w) = Some "TopicalPageRank" \/
  model_type (_service w) = Some "DocSim" ->
  (fst (preprocess request w) = Ok outs <-> Forall2 decoded request outs) /\
  (fst (preprocess request w) = Ok outs ->
   Forall (fun v => is_frame v = false) outs).
Proof.
  intros Htype.
  assert (Hiff : fst (preprocess request w) = Ok outs <->
                 Forall2 decoded request outs).
  { unfold preprocess. unfold bind at 1. unfold enter at 1, emit at 1.
    unfold bind at 1. unfold self at 1. cbn [_service].
    assert (py_eq (model_type (_service w)) "TopicalPageRank" ||
            py_eq (model_type (_service w)) "DocSim" = true) as ->.
    { destruct Htype as [-> | ->]; reflexivity. }
    rewrite preprocess_loop_spec. split.
    - intros (new & -> & Hnew). exact Hnew.
    - intros Hnew. exists outs. auto. }
  split; [exact Hiff|].
  intros Hok. apply (decoded_not_frame request), Hiff, Hok.
Qed.

(** Two requests to the handler in similarity mode. *)
Lemma preprocess_decodes_in_order_witness :
  (fst (preprocess [request_a; request_b] (world_of "DocSim")) =
     Ok [PStr [97%N]; PStr [98%N]] <->
   Forall2 decoded [request_a; request_b] [PStr [97%N]; PStr [98%N]]) /\
  (fst (preprocess [request_a; request_b] (world_of "DocSim")) =
     Ok [PStr [97%N]; PStr [98%N]] ->
   Forall (fun v => is_frame v = false) [PStr [97%N]; PStr [98%N]]).
Proof.
  apply (preprocess_decodes_in_order (world_of "DocSim")
           [request_a; request_b] [PStr [97%N]; PStr [98%N]]).
  right. reflexivity.
Defined.

(** C3, as the claim states it, fails for the similarity model: on a
    request with the body [a] the handler in similarity mode returns the
    decoded text, which is no frame. *)
Lemma similarity_preprocess_returns_text :
  fst (preprocess [request_a] (world_of "DocSim")) = Ok [PStr [97%N]] /\
  ~ Forall (fun v => is_frame v = true) [PStr [97%N]].
Proof.
  split; [vm_compute; reflexivity|].
  intros H. inversion H as [|? ? Hframe _]. discriminate Hframe.
Qed.

(** ** The similarity branch of [inference] *)

Lemma getattr_wv_raises (model : option string) :
  getattr_wv model = Raise (AttributeError "wv").
Proof. destruct model; reflexivity. Qed.

(** A row of a table never gets its similarity: every path through the body
    of the loop ends in an exception, at the latest where it asks the model,
    a path string, for its word vectors. *)
Lemma docsim_rows_raises (fs : FileSystem) (L : Libs)
    (stoplist : list text) (row : list text)
    (rows : list (list text)) (similarities : list (similarity L))
    (w : World) :
  exists e, fst (docsim_rows fs L stoplist (row :: rows) similarities w) = Raise e.
Proof.
  simpl. unfold bind at 1, lift at 1.
  destruct (iloc row 0) as [cell0|e]; [|eauto].
  unfold bind at 1, lift at 1.
  destruct (simple_preprocess L fs cell0) as [tokens1|e]; [|eauto].
  unfold bind at 1.
  rewrite (quiet_run (filter_words stoplist tokens1) w)
    by apply quiet_filter_words.
  destruct (fst (filter_words stoplist tokens1 w)) as [words1|e]; [|eauto].
  unfold bind at 1, lift at 1.
  destruct (iloc row 1) as [cell1|e]; [|eauto].
  unfold bind at 1, lift at 1.
  destruct (simple_preprocess L fs cell1) as [tokens2|e]; [|eauto].
  unfold bind at 1.
  rewrite (quiet_run (filter_words stoplist tokens2) w)
    by apply quiet_filter_words.
  destruct (fst (filter_words stoplist tokens2 w)) as [words2|e]; [|eauto].
  unfold bind at 1, self at 1. unfold bind at 1, lift at 1.
  rewrite getattr_wv_raises. eauto.
Qed.

Lemma initialize_sets_model_path (fs : FileSystem) (context : Context)
    (w w' : World) :
  initialize fs context w = (Ok tt, w') ->
  exists (dir path : string),
    system_properties context !! "model_dir" = Some dir /\
    model_type (_service w') <> None /\
    path_join (Some dir) (py_str (model_type (_service w')) +:+ "-model") =
      Ok path /\
    model (_service w') = Some path /\
    fs_isfile fs path = true.
Proof.
  destruct (system_properties context !! "model_dir") as [dir|] eqn:Hdir.
  - rewrite (initialize_run fs context dir w Hdir). cbv zeta.
    destruct (fs_glob fs _) as [|f rest]; [discriminate|].
    destruct (fs_isfile fs _); [|discriminate].
    destruct (fs_load_json fs _) as [params|e]; [|discriminate].
    destruct (String.eqb _ _ || String.eqb _ _); [|discriminate].
    destruct (fs_isfile fs (posix_join dir (prefix_of f +:+ "-model")))
      eqn:Hfile; [|discriminate].
    intros [= <-]. exists dir, (posix_join dir (prefix_of f +:+ "-model")).
    simpl. repeat split; auto; discriminate.
  - rewrite (initialize_run_no_dir fs context w Hdir). cbv zeta.
    destruct (fs_glob fs _) as [|f rest]; discriminate.
Qed.

(** C2.  With [model_type] equal to ["DocSim"], [inference] raises on every
    input, the non-empty ones included, before any row is looked at: when
    the stop-word corpus loads, the exception is the [UnboundLocalError] for
    [language], a local variable that this branch reads and only the other
    branch assigns; when it does not load, it is the corpus' exception.
    And the loop could not produce a similarity either: [self.model] is the
    path string that [initialize] stored, asking it for [wv] is an
    [AttributeError], and every row ends in an exception. *)
Theorem docsim_inference_always_raises (fs : FileSystem) (L : Libs)
    (w : World) (model_input : list pyval) :
  model_type (_service w) = Some "DocSim" ->
  (exists e, fst (inference fs L model_input w) = Raise e) /\
  (forall words, stopwords_words L fs = Ok words ->
     fst (inference fs L model_input w) = Raise (UnboundLocalError "language")) /\
  (forall (fs0 : FileSystem) (context : Context) (w0 : World),
     initialize fs0 context w0 = (Ok tt, w) ->
     exists dir, system_properties context !! "model_dir" = Some dir /\
       model (_service w) = Some (posix_join dir "DocSim-model")) /\
  getattr_wv (model (_service w)) = Raise (AttributeError "wv") /\
  (forall (stoplist : list text) (row : list text) (rows : list (list text))
          (similarities : list (similarity L)),
     exists e,
       fst (docsim_rows fs L stoplist (row :: rows) similarities w) = Raise e).
Proof.
  intros Htype.
  assert (Hrun : fst (inference fs L model_input w) =
                 match stopwords_words L fs with
                 | Ok _ => Raise (UnboundLocalError "language")
                 | Raise e => Raise e
                 end).
  { unfold inference. unfold bind at 1. unfold enter at 1, emit at 1.
    unfold bind at 1. unfold self at 1. cbn [_service].
    rewrite Htype. cbn [py_eq]. simpl String.eqb. cbv iota.
    unfold bind at 1, lift at 1.
    destruct (stopwords_words L fs) as [words|e]; reflexivity. }
  split; [|split; [|split; [|split]]].
  - rewrite Hrun. destruct (stopwords_words L fs); eauto.
  - intros words Hwords. rewrite Hrun, Hwords. reflexivity.
  - intros fs0 context w0 Hinit.
    destruct (initialize_sets_model_path fs0 context w0 w Hinit)
      as (dir & path & Hdir & _ & Hjoin & Hmodel & _).
    exists dir. split; [exact Hdir|].
    rewrite Htype in Hjoin. simpl in Hjoin. injection Hjoin as <-.
    exact Hmodel.
  - apply getattr_wv_raises.
  - intros. apply docsim_rows_raises.
Qed.

(** The handler that [initialize] leaves for a directory of the similarity
    model: its model is the path, and [inference] on a table raises. *)
Lemma docsim_inference_always_raises_witness :
  let w := snd (initialize (fs_of docsim_dir) (context_of "/m") fresh_world) in
  model_type (_service w) = Some "DocSim" /\
  model (_service w) = Some "/m/DocSim-model" /\
  fst (inference (fs_of docsim_dir) (stub_libs false)
         [PFrame [[[97%N]; [98%N]]]] w) =
    Raise (UnboundLocalError "language").
Proof.
  intros w.
  assert (Htype : model_type (_service w) = Some "DocSim") by reflexivity.
  destruct (docsim_inference_always_raises (fs_of docsim_dir)
              (stub_libs false) w [PFrame [[[97%N]; [98%N]]]] Htype)
    as (_ & Hraise & Hpath & _).
  split; [exact Htype|]. split.
  - destruct (Hpath (fs_of docsim_dir) (context_of "/m") fresh_world)
      as (dir & Hdir & Hmodel); [vm_compute; reflexivity|].
    rewrite Hmodel. vm_compute in Hdir. injection Hdir as <-. reflexivity.
  - exact (Hraise (fun _ => Ok []) eq_refl).
Defined.

(** ** The ranking branch of [inference] *)

Section Ranking.

Variable fs : FileSystem.
Variable L : Libs.
Variables grammar language normalization window max_count : jval.

Local Abbreviation pos := ranking_pos.
Local Abbreviation step :=
  (step_result fs L grammar language normalization window max_count).

Lemma step_same_handler (w1 w2 : World) (ext : extractor L) (t : pyval) :
  _service w1 = _service w2 -> step w1 ext t = step w2 ext t.
Proof.
  intros Hs. unfold step_result, ranking_step. unfold_monad. rewrite Hs.
  destruct (pke_load_document L fs ext t language normalization) as [e1|]; simpl;
    [|reflexivity].
  destruct (pke_candidate_selection L fs e1 grammar) as [e2|]; simpl;
    [|reflexivity].
  destruct (pke_candidate_weighting L fs e2 window pos (model (_service w2)));
    reflexivity.
Qed.

Lemma step_after_reset (w : World) (ext ext' : extractor L) (t : pyval) :
  (forall e e' t l n,
     pke_load_document L fs e t l n = pke_load_document L fs e' t l n) ->
  step w ext t = step w ext' t.
Proof.
  intros Hreset. unfold step_result, ranking_step. unfold_monad.
  rewrite (Hreset ext ext'). reflexivity.
Qed.

Lemma ranking_loop_threads (model_input : list pyval) (ext : extractor L)
    (acc outs : list (output L)) (w w' : World) :
  ranking_loop fs L grammar language normalization window max_count pos
    model_input ext acc w = (Ok outs, w') ->
  w' = w /\
  exists ks, outs = acc ++ (Keyphrases <$> ks) /\
             threaded (step w) ext model_input ks.
Proof.
  revert ext acc.
  induction model_input as [|t model_input IH]; intros ext acc; simpl.
  - unfold ret. intros [= <- <-]. split; [reflexivity|].
    exists []. simpl. rewrite app_nil_r. auto.
  - unfold bind at 1.
    rewrite (quiet_run (ranking_step fs L _ _ _ _ _ _ _ _) w)
      by apply quiet_ranking_step.
    fold (step w ext t).
    destruct (step w ext t) as [[k ext']|e] eqn:Hstep; [|discriminate].
    intros Hloop. destruct (IH _ _ Hloop) as (-> & ks & -> & Hks).
    split; [reflexivity|]. exists (k :: ks).
    simpl. rewrite <- app_assoc. split; [reflexivity|].
    exists ext'. auto.
Qed.

Lemma threaded_length (w : World) (ext : extractor L)
    (model_input : list pyval) (ks : list (keyphrases L)) :
  threaded (step w) ext model_input ks -> length ks = length model_input.
Proof.
  revert ext ks.
  induction model_input as [|t model_input IH]; intros ext [|k ks]; simpl;
    try tauto.
  intros (ext' & _ & Hks). f_equal. exact (IH _ _ Hks).
Qed.

Lemma threaded_after_reset (w : World) (ext0 ext : extractor L)
    (model_input : list pyval) (ks : list (keyphrases L)) :
  (forall e e' t l n,
     pke_load_document L fs e t l n = pke_load_document L fs e' t l n) ->
  threaded (step w) ext model_input ks ->
  Forall2 (fun t k => exists ext', step w ext0 t = Ok (k, ext'))
    model_input ks.
Proof.
  intros Hreset. revert ext ks.
  induction model_input as [|t model_input IH]; intros ext [|k ks]; simpl.
  - constructor.
  - tauto.
  - tauto.
  - intros (ext' & Hstep & Hks). constructor.
    + exists ext'. rewrite <- Hstep. apply step_after_reset, Hreset.
    + exact (IH _ _ Hks).
Qed.

Lemma inference_ranking_run (w : World) (model_input : list pyval)
    (ext0 : extractor L) :
  model_type (_service w) = Some "TopicalPageRank" ->
  subscript (model_params (_service w)) "grammar" = Ok grammar ->
  subscript (model_params (_service w)) "language" = Ok language ->
  subscript (model_params (_service w)) "normalization" = Ok normalization ->
  subscript (model_params (_service w)) "window" = Ok window ->
  subscript (model_params (_service w)) "max_count" = Ok max_count ->
  pke_TopicalPageRank L fs = Ok ext0 ->
  inference fs L model_input w =
  ranking_loop fs L grammar language normalization window max_count pos
    model_input ext0 []
    (after w (_service w) [Enter c_inference; Enter c_TopicalPageRank]).
Proof.
  intros Htype Hg Hl Hn Hw Hm Hext.
  unfold inference. unfold bind at 1. unfold enter at 1, emit at 1.
  unfold bind at 1. unfold self at 1. cbn [_service].
  rewrite (py_eq_true _ _ Htype). cbv iota.
  rewrite Hg, Hl, Hn, Hw, Hm, Hext.
  unfold bind, lift, enter, emit. cbn [_service trace].
  unfold after. rewrite <- app_assoc. reflexivity.
Qed.

Lemma inference_ranking_single (w : World) (t : pyval) (ext0 : extractor L) :
  model_type (_service w) = Some "TopicalPageRank" ->
  subscript (model_params (_service w)) "grammar" = Ok grammar ->
  subscript (model_params (_service w)) "language" = Ok language ->
  subscript (model_params (_service w)) "normalization" = Ok normalization ->
  subscript (model_params (_service w)) "window" = Ok window ->
  subscript (model_params (_service w)) "max_count" = Ok max_count ->
  pke_TopicalPageRank L fs = Ok ext0 ->
  forall k ext', step w ext0 t = Ok (k, ext') ->
  fst (inference fs L [t] w) = Ok [Keyphrases k].
Proof.
  intros Htype Hg Hl Hn Hw Hm Hext k ext' Hstep.
  rewrite (inference_ranking_run w [t] ext0) by assumption.
  set (w1 := after w _ _).
  assert (Hstep1 : step w1 ext0 t = Ok (k, ext')).
  { rewrite <- Hstep. apply step_same_handler. reflexivity. }
  simpl. unfold bind at 1.
  rewrite (quiet_run (ranking_step fs L _ _ _ _ _ _ _ _) w1)
    by apply quiet_ranking_step.
  fold (step w1 ext0 t). rewrite Hstep1. reflexivity.
Qed.

End Ranking.

Lemma inference_ranking_inv (fs : FileSystem) (L : Libs) (w : World)
    (model_input : list pyval) (outs : list (output L)) (w' : World) :
  model_type (_service w) = Some "TopicalPageRank" ->
  inference fs L model_input w = (Ok outs, w') ->
  exists g l n wd mc ext0,
    subscript (model_params (_service w)) "grammar" = Ok g /\
    subscript (model_params (_service w)) "language" = Ok l /\
    subscript (model_params (_service w)) "normalization" = Ok n /\
    subscript (model_params (_service w)) "window" = Ok wd /\
    subscript (model_params (_service w)) "max_count" = Ok mc /\
    pke_TopicalPageRank L fs = Ok ext0.
Proof.
  intros Htype.
  unfold inference. unfold bind at 1. unfold enter at 1, emit at 1.
  unfold bind at 1. unfold self at 1. cbn [_service].
  rewrite (py_eq_true _ _ Htype). cbv iota.
  unfold bind at 1, lift at 1.
  destruct (subscript _ "grammar") as [g|]; [|discriminate].
  unfold bind at 1, lift at 1.
  destruct (subscript _ "language") as [l|]; [|discriminate].
  unfold bind at 1, lift at 1.
  destruct (subscript _ "normalization") as [n|]; [|discriminate].
  unfold bind at 1, lift at 1.
  destruct (subscript _ "window") as [wd|]; [|discriminate].
  unfold bind at 1, lift at 1.
  destruct (subscript _ "max_count") as [mc|]; [|discriminate].
  unfold bind at 1. unfold enter at 1, emit at 1.
  unfold bind at 1, lift at 1.
  destruct (pke_TopicalPageRank L fs) as [ext0|]; [|discriminate].
  intros _. exists g, l, n, wd, mc, ext0. repeat split; reflexivity.
Qed.

Lemma threaded_ext {S T K : Type} (f g : S -> T -> result (K * S)) :
  (forall s t, f s t = g s t) ->
  forall (ts : list T) (s : S) (ks : list K),
    threaded f s ts ks -> threaded g s ts ks.
Proof.
  intros Hfg. induction ts as [|t ts IH]; intros s [|k ks]; simpl; try tauto.
  intros (s' & Hstep & Hrest). exists s'. rewrite <- Hfg. auto.
Qed.

(** C4, as the code has it.  A successful [inference] in ranking mode
    enters the extractor's constructor once, whatever the size of the batch,
    and returns one result per text.  Every text goes through that one
    extractor, in order: the results are those of threading the state of the
    constructed extractor through the texts, the body of the loop starting
    for each text from the state it left for the text before.  The result
    for the first text is the result of [inference] on that text alone.  For
    the later texts that is so when the library's [load_document] does not
    depend on what the extractor held before. *)
Theorem ranking_shares_one_extractor (fs : FileSystem) (L : Libs) (w : World)
    (model_input : list pyval) (outs : list (output L)) (w' : World) :
  model_type (_service w) = Some "TopicalPageRank" ->
  inference fs L model_input w = (Ok outs, w') ->
  new_events w w' = [Enter c_inference; Enter c_TopicalPageRank] /\
  entries c_TopicalPageRank (new_events w w') = 1 /\
  (exists (grammar language normalization window max_count : jval)
          (ext0 : extractor L) (ks : list (keyphrases L)),
     subscript (model_params (_service w)) "grammar" = Ok grammar /\
     subscript (model_params (_service w)) "language" = Ok language /\
     subscript (model_params (_service w)) "normalization" = Ok normalization /\
     subscript (model_params (_service w)) "window" = Ok window /\
     subscript (model_params (_service w)) "max_count" = Ok max_count /\
     pke_TopicalPageRank L fs = Ok ext0 /\
     outs = Keyphrases <$> ks /\
     threaded
       (step_result fs L grammar language normalization window max_count w)
       ext0 model_input ks) /\
  length outs = length model_input /\
  (forall t rest, model_input = t :: rest ->
     exists o, head outs = Some o /\ fst (inference fs L [t] w) = Ok [o]) /\
  ((forall e e' t l n,
      pke_load_document L fs e t l n = pke_load_document L fs e' t l n) ->
   Forall2 (fun t o => fst (inference fs L [t] w) = Ok [o]) model_input outs).
Proof.
  intros Htype Hrun.
  destruct (inference_ranking_inv fs L w model_input outs w' Htype Hrun)
    as (g & l & n & wd & mc & ext0 & Hg & Hl & Hn & Hwd & Hmc & Hext).
  rewrite (inference_ranking_run fs L g l n wd mc w model_input ext0) in Hrun
    by assumption.
  apply ranking_loop_threads in Hrun as (-> & ks & -> & Hks).
  set (w1 := after w (_service w) [Enter c_inference; Enter c_TopicalPageRank])
    in *.
  assert (Hnew : new_events w w1 =
                 [Enter c_inference; Enter c_TopicalPageRank])
    by apply new_events_app.
  assert (Hthread : threaded (step_result fs L g l n wd mc w) ext0
                      model_input ks).
  { revert Hks. apply threaded_ext. intros ext t.
    apply step_same_handler. reflexivity. }
  split; [exact Hnew|]. split; [rewrite Hnew; reflexivity|].
  simpl app. split; [|split; [|split]].
  - exists g, l, n, wd, mc, ext0, ks. repeat split; assumption.
  - rewrite length_fmap. exact (threaded_length fs L g l n wd mc w1 _ _ _ Hks).
  - intros t rest ->. destruct ks as [|k ks]; simpl in Hks; [tauto|].
    destruct Hks as (ext' & Hstep & _).
    exists (Keyphrases k). split; [reflexivity|].
    apply (inference_ranking_single fs L g l n wd mc w t ext0)
      with (ext' := ext'); auto.
    rewrite <- Hstep. apply step_same_handler. reflexivity.
  - intros Hreset.
    pose proof (threaded_after_reset fs L g l n wd mc w1 ext0 ext0 _ _
                  Hreset Hks) as Hall.
    clear Hks Hthread.
    induction Hall as [|t k ts ks (ext' & Hstep) _ IH]; simpl;
      constructor; [|exact IH].
    apply (inference_ranking_single fs L g l n wd mc w t ext0)
      with (ext' := ext'); auto.
    rewrite <- Hstep. apply step_same_handler. reflexivity.
Qed.

(** A batch of two texts.  With an extractor that keeps what it loaded, the
    second text is loaded into the state the first one left, and the key
    phrases [inference] returns for it show both texts.  With an extractor
    that forgets on loading, each text gets what it gets alone. *)
Lemma ranking_shares_one_extractor_witness :
  fst (inference (fs_of ranking_dir) (stub_libs false)
         [PStr [97%N]; PStr [98%N]] (world_of "TopicalPageRank")) =
    Ok [Keyphrases (L := stub_libs false) [[97%N]];
        Keyphrases (L := stub_libs false) [[97%N]; [98%N]]] /\
  threaded
    (step_result (fs_of ranking_dir) (stub_libs false)
       (JStr "NP: {<ADJ>*<NOUN|PROPN>}") (JStr "en") (JStr "stemming")
       (JNum 10) (JNum 3) (world_of "TopicalPageRank"))
    [] [PStr [97%N]; PStr [98%N]] [[[97%N]]; [[97%N]; [98%N]]] /\
  entries c_TopicalPageRank
    (new_events (world_of "TopicalPageRank")
       (snd (inference (fs_of ranking_dir) (stub_libs true)
               [PStr [97%N]; PStr [98%N]] (world_of "TopicalPageRank")))) = 1 /\
  Forall2
    (fun t o =>
       fst (inference (fs_of ranking_dir) (stub_libs true) [t]
              (world_of "TopicalPageRank")) = Ok [o])
    [PStr [97%N]; PStr [98%N]]
    [Keyphrases (L := stub_libs true) [[97%N]];
     Keyphrases (L := stub_libs true) [[98%N]]].
Proof.
  assert (Hrun :
    inference (fs_of ranking_dir) (stub_libs false)
      [PStr [97%N]; PStr [98%N]] (world_of "TopicalPageRank") =
    (Ok [Keyphrases (L := stub_libs false) [[97%N]];
         Keyphrases (L := stub_libs false) [[97%N]; [98%N]]],
     snd (inference (fs_of ranking_dir) (stub_libs false)
            [PStr [97%N]; PStr [98%N]] (world_of "TopicalPageRank"))))
    by (vm_compute; reflexivity).
  split; [rewrite Hrun; reflexivity|].
  split.
  - destruct (ranking_shares_one_extractor (fs_of ranking_dir)
                (stub_libs false) (world_of "TopicalPageRank")
                [PStr [97%N]; PStr [98%N]] _ _ eq_refl Hrun)
      as (_ & _ & (g & l & n & wd & mc & ext0 & ks & Hg & Hl & Hn & Hwd & Hmc
                   & Hext & Houts & Hks) & _).
    vm_compute in Hg, Hl, Hn, Hwd, Hmc, Hext.
    injection Hg as <-. injection Hl as <-. injection Hn as <-.
    injection Hwd as <-. injection Hmc as <-. injection Hext as <-.
    destruct ks as [|k1 [|k2 [|k3 ks]]]; try discriminate Houts.
    injection Houts as <- <-. exact Hks.
  - assert (Hrun' :
      inference (fs_of ranking_dir) (stub_libs true)
        [PStr [97%N]; PStr [98%N]] (world_of "TopicalPageRank") =
      (Ok [Keyphrases (L := stub_libs true) [[97%N]];
           Keyphrases (L := stub_libs true) [[98%N]]],
       snd (inference (fs_of ranking_dir) (stub_libs true)
              [PStr [97%N]; PStr [98%N]] (world_of "TopicalPageRank"))))
      by (vm_compute; reflexivity).
    destruct (ranking_shares_one_extractor (fs_of ranking_dir)
                (stub_libs true) (world_of "TopicalPageRank")
                [PStr [97%N]; PStr [98%N]] _ _ eq_refl Hrun')
      as (_ & Hone & _ & _ & _ & Hall).
    split; [exact Hone|].
    apply Hall. intros e e' [t|rows] l n; reflexivity.
Defined.

(** C4, as the claim states it, fails.  On a batch of two texts the
    extractor's constructor is entered once, not once per text; and with an
    extractor that keeps what was loaded into it, the result for the second
    text is not the result that text gets alone. *)
Lemma ranking_batch_shares_extractor_state :
  entries c_TopicalPageRank
    (new_events (world_of "TopicalPageRank")
       (snd (inference (fs_of ranking_dir) (stub_libs false)
               [PStr [97%N]; PStr [98%N]] (world_of "TopicalPageRank")))) = 1 /\
  fst (inference (fs_of ranking_dir) (stub_libs false)
         [PStr [97%N]; PStr [98%N]] (world_of "TopicalPageRank")) =
    Ok [Keyphrases (L := stub_libs false) [[97%N]];
        Keyphrases (L := stub_libs false) [[97%N]; [98%N]]] /\
  fst (inference (fs_of ranking_dir) (stub_libs false) [PStr [98%N]]
         (world_of "TopicalPageRank")) =
    Ok [Keyphrases (L := stub_libs false) [[98%N]]].
Proof. vm_compute. repeat split; reflexivity. Qed.

(** ** The module-level [handle] and the empty batch *)

Lemma emits_run {A : Type} (P : event -> bool) (m : M A) (w : World) :
  emits P m ->
  exists r evs, m w = (r, after w (_service w) evs) /\ forallb P evs = true.
Proof.
  intros Hm. destruct (Hm w) as (evs & Hw & Hevs).
  exists (fst (m w)), evs. split; [|exact Hevs].
  rewrite <- Hw. destruct (m w); reflexivity.
Qed.

Lemma emits_preprocess_body (request : list entry) :
  emits serving_event
    (do s <- self;
     if py_eq (model_type s) "TopicalPageRank" || py_eq (model_type s) "DocSim"
     then preprocess_loop request []
     else
       run logging ERROR "Model {} not supported!"
             (AStr (py_str (model_type s)));
       raise (RuntimeError
                (format "Model {} not supported!" [py_str (model_type s)]))).
Proof.
  unfold logging. emits_steps.
  destruct (py_eq _ _ || py_eq _ _); emits_steps.
Qed.

(** A call of the method [handle] enters [handle] and then [preprocess],
    whatever the batch. *)
Lemma ModelHandler_handle_enters_preprocess (fs : FileSystem) (L : Libs)
    (data : list entry) (context : Context) (w : World) :
  exists evs,
    snd (ModelHandler_handle fs L data context w) =
    after w (_service w) (Enter c_handle :: Enter c_preprocess :: evs).
Proof.
  unfold ModelHandler_handle, preprocess.
  unfold bind at 1. unfold enter at 1, emit at 1.
  unfold bind at 1. unfold bind at 1. unfold enter at 1, emit at 1.
  cbn [_service trace].
  set (w0 := {| _service := _service w;
                trace := (trace w ++ [Enter c_handle]) ++ [Enter c_preprocess] |}).
  destruct (emits_run serving_event _ w0 (emits_preprocess_body data))
    as (r & evs & Hrun & _).
  rewrite Hrun. destruct r as [model_input|e].
  - assert (Hrest : emits serving_event
                      (do model_out <- inference fs L model_input;
                       postprocess L model_out)).
    { apply emits_bind; [apply emits_inference|].
      intros model_out. apply emits_postprocess. }
    destruct (Hrest (after w0 (_service w0) evs)) as (evs' & -> & _).
    exists (evs ++ evs'). unfold after, w0. cbn [_service trace].
    rewrite <- !app_assoc. reflexivity.
  - exists evs. unfold after, w0. cbn [_service trace].
    rewrite <- !app_assoc. reflexivity.
Qed.

(** C1, as the code has it.  On an initialized handler, [handle] returns
    [None] and does nothing at all when the batch is absent ([None]).  An
    empty batch is a batch like any other: the method [handle] and then
    [preprocess] are entered; and in ranking mode, with the five parameters
    there and an extractor constructed, [inference] and [postprocess] run as
    well and the result is the empty list. *)
Theorem handle_short_circuits_only_None (fs : FileSystem) (L : Libs)
    (context : Context) (w : World) :
  initialized (_service w) = true ->
  handle fs L None context w = (Ok None, w) /\
  (exists evs,
     new_events w (snd (handle fs L (Some []) context w)) =
       Enter c_handle :: Enter c_preprocess :: evs) /\
  (forall ext0 : extractor L,
     model_type (_service w) = Some "TopicalPageRank" ->
     Forall (fun key => exists v,
               subscript (model_params (_service w)) key = Ok v)
       ranking_keys ->
     pke_TopicalPageRank L fs = Ok ext0 ->
     handle fs L (Some []) context w =
       (Ok (Some []),
        after w (_service w)
          [Enter c_handle; Enter c_preprocess; Enter c_inference;
           Enter c_TopicalPageRank; Enter c_postprocess])).
Proof.
  intros Hflag. split; [|split].
  - apply (handle_initialized fs L None context w Hflag).
  - rewrite (handle_initialized fs L (Some []) context w Hflag).
    destruct (ModelHandler_handle_enters_preprocess fs L [] context w)
      as (evs & Hevs).
    exists evs. unfold bind.
    destruct (ModelHandler_handle fs L [] context w) as [[out|e] w1];
      simpl in Hevs; subst w1; apply new_events_app.
  - intros ext0 Htype Hkeys Hext.
    rewrite (handle_initialized fs L (Some []) context w Hflag).
    unfold ranking_keys in Hkeys.
    repeat match goal with
           | H : Forall _ (_ :: _) |- _ =>
               apply Forall_cons in H as [[? ?] H]
           end.
    unfold ModelHandler_handle, preprocess, postprocess.
    unfold bind at 1 2. unfold enter at 1, emit at 1.
    unfold bind at 1 2. unfold enter at 1, emit at 1.
    unfold bind at 1. unfold self at 1. cbn [_service trace].
    rewrite (py_eq_true _ _ Htype). cbn [orb preprocess_loop]. unfold ret at 1.
    unfold bind at 1.
    rewrite (inference_ranking_run fs L _ _ _ _ _ _ [] ext0) by eassumption.
    cbn [ranking_loop]. unfold ret at 1.
    unfold bind at 1. unfold enter at 1, emit at 1.
    unfold bind at 1. unfold self at 1. cbn [_service trace after].
    rewrite (py_eq_true _ _ Htype). cbn [orb]. unfold ret.
    rewrite <- !app_assoc. reflexivity.
Qed.

(** The initialized ranking handler, with no batch and with the empty one. *)
Lemma handle_short_circuits_only_None_witness :
  handle (fs_of ranking_dir) (stub_libs false) None (context_of "/m")
    (world_of "TopicalPageRank") = (Ok None, world_of "TopicalPageRank") /\
  handle (fs_of ranking_dir) (stub_libs false) (Some []) (context_of "/m")
    (world_of "TopicalPageRank") =
    (Ok (Some []),
     after (world_of "TopicalPageRank") (_service (world_of "TopicalPageRank"))
       [Enter c_handle; Enter c_preprocess; Enter c_inference;
        Enter c_TopicalPageRank; Enter c_postprocess]).
Proof.
  destruct (handle_short_circuits_only_None (fs_of ranking_dir)
              (stub_libs false) (context_of "/m")
              (world_of "TopicalPageRank") eq_refl) as (Hnone & _ & Hempty).
  split; [exact Hnone|].
  apply (Hempty []); [reflexivity| |reflexivity].
  repeat constructor; eexists; vm_compute; reflexivity.
Defined.

(** C1, as the claim states it, fails: on an initialized handler in ranking
    mode [handle] with the empty batch returns the empty list, not [None],
    and it has entered [preprocess], [inference] and [postprocess]. *)
Lemma empty_batch_runs_the_pipeline :
  initialized (_service (world_of "TopicalPageRank")) = true /\
  fst (handle (fs_of ranking_dir) (stub_libs false) (Some [])
         (context_of "/m") (world_of "TopicalPageRank")) = Ok (Some []) /\
  new_events (world_of "TopicalPageRank")
    (snd (handle (fs_of ranking_dir) (stub_libs false) (Some [])
            (context_of "/m") (world_of "TopicalPageRank"))) =
    [Enter c_handle; Enter c_preprocess; Enter c_inference;
     Enter c_TopicalPageRank; Enter c_postprocess].
Proof. vm_compute. repeat split; reflexivity. Qed.

(** * Further properties of the handler *)

(** ** When [initialize] succeeds, and how it fails *)

(** X1.  [initialize] returns exactly when the context gives a model
    directory, some file matches the pattern, the prefix of the first match
    is one of the two identifiers, the parameter file of that prefix is a
    file that loads, and the model file of that prefix is a file.  The
    handler is then initialized with the prefix as its type, the loaded
    document as its parameters and the path of the model file as its
    model. *)
Theorem initialize_succeeds_iff (fs : FileSystem) (context : Context)
    (w w' : World) :
  initialize fs context w = (Ok tt, w') <->
  exists (dir f : string) (rest : list string) (params : jval),
    system_properties context !! "model_dir" = Some dir /\
    fs_glob fs (params_pattern (Some dir)) = f :: rest /\
    (prefix_of f = "TopicalPageRank" \/ prefix_of f = "DocSim") /\
    fs_isfile fs (posix_join dir (prefix_of f +:+ "-params.json")) = true /\
    fs_load_json fs (posix_join dir (prefix_of f +:+ "-params.json")) =
      Ok params /\
    fs_isfile fs (posix_join dir (prefix_of f +:+ "-model")) = true /\
    w' = after w (loaded_handler dir (prefix_of f) params)
           (initialize_events fs dir (prefix_of f)).
Proof.
  split.
  - destruct (system_properties context !! "model_dir") as [dir|] eqn:Hdir.
    + rewrite (initialize_run fs context dir w Hdir). cbv zeta.
      destruct (fs_glob fs _) as [|f rest] eqn:Hglob; [discriminate|].
      destruct (fs_isfile fs (posix_join dir (prefix_of f +:+ "-params.json")))
        eqn:Hparams; [|discriminate].
      destruct (fs_load_json fs _) as [params|e] eqn:Hload; [|discriminate].
      destruct (String.eqb (prefix_of f) "TopicalPageRank" ||
                String.eqb (prefix_of f) "DocSim") eqn:Htype; [|discriminate].
      destruct (fs_isfile fs (posix_join dir (prefix_of f +:+ "-model")))
        eqn:Hmodel; [|discriminate].
      intros [= <-]. exists dir, f, rest, params.
      repeat split; try assumption; try reflexivity.
      apply orb_prop in Htype as [H|H]; apply String.eqb_eq in H; auto.
    + rewrite (initialize_run_no_dir fs context w Hdir). cbv zeta.
      destruct (fs_glob fs _); discriminate.
  - intros (dir & f & rest & params & Hdir & Hglob & Htype & Hparams & Hload
            & Hmodel & ->).
    rewrite (initialize_run fs context dir w Hdir), Hglob. cbv zeta.
    rewrite Hparams, Hload, Hmodel.
    assert (String.eqb (prefix_of f) "TopicalPageRank" ||
            String.eqb (prefix_of f) "DocSim" = true) as ->.
    { destruct Htype as [-> | ->]; reflexivity. }
    reflexivity.
Qed.

(** The directory of the ranking model, from the freshly loaded module. *)
Lemma initialize_succeeds_iff_witness :
  initialize (fs_of ranking_dir) (context_of "/m") fresh_world =
    (Ok tt,
     after fresh_world
       (loaded_handler "/m" "TopicalPageRank" ranking_params)
       (initialize_events (fs_of ranking_dir) "/m" "TopicalPageRank")).
Proof.
  apply initialize_succeeds_iff.
  exists "/m", "/m/TopicalPageRank-params.json", [], ranking_params.
  repeat split; try reflexivity. left. reflexivity.
Defined.



(** X3.  What [initialize] returns and logs does not depend on the handler
    it starts from, only on the context and the file system; and when it
    succeeds, neither does the handler it leaves: every field is written
    anew. *)
Theorem initialize_ignores_previous_state (fs : FileSystem)
    (context : Context) (w1 w2 : World) :
  fst (initialize fs context w1) = fst (initialize fs context w2) /\
  new_events w1 (snd (initialize fs context w1)) =
    new_events w2 (snd (initialize fs context w2)) /\
  (fst (initialize fs context w1) = Ok tt ->
   _service (snd (initialize fs context w1)) =
   _service (snd (initialize fs context w2))).
Proof.
  destruct (system_properties context !! "model_dir") as [dir|] eqn:Hdir.
  - rewrite !(initialize_run fs context dir _ Hdir). cbv zeta.
    destruct (fs_glob fs _) as [|f rest].
    { simpl. unfold after. rewrite !new_events_app.
      repeat split; discriminate. }
    destruct (fs_isfile fs (posix_join dir (prefix_of f +:+ "-params.json"))).
    2: { simpl. unfold after. rewrite !new_events_app.
         repeat split; discriminate. }
    destruct (fs_load_json fs _) as [params|e].
    2: { simpl. unfold after. rewrite !new_events_app.
         repeat split; discriminate. }
    destruct (String.eqb _ _ || String.eqb _ _).
    2: { simpl. unfold after. rewrite !new_events_app.
         repeat split; discriminate. }
    destruct (fs_isfile fs (posix_join dir (prefix_of f +:+ "-model")));
      simpl; unfold after; rewrite !new_events_app; repeat split;
      discriminate.
  - rewrite !(initialize_run_no_dir fs context _ Hdir). cbv zeta.
    destruct (fs_glob fs _) as [|f rest]; simpl; unfold after;
      rewrite !new_events_app; repeat split; discriminate.
Qed.

(** X4.  A missing model file is noticed once and changes nothing else: when
    the first match has a supported prefix and its parameters load,
    [initialize] leaves the same handler whether the model file is there or
    not, with the path of that file as its model; only the result differs,
    a [MemoryError] whose context reports the file instead of a return. *)
Theorem missing_model_leaves_handler_loaded (fs : FileSystem)
    (context : Context) (dir : string) (w : World) (f : string)
    (rest : list string) (params : jval) :
  system_properties context !! "model_dir" = Some dir ->
  fs_glob fs (params_pattern (Some dir)) = f :: rest ->
  prefix_of f = "TopicalPageRank" \/ prefix_of f = "DocSim" ->
  fs_isfile fs (posix_join dir (prefix_of f +:+ "-params.json")) = true ->
  fs_load_json fs (posix_join dir (prefix_of f +:+ "-params.json")) =
    Ok params ->
  let model_path := posix_join dir (prefix_of f +:+ "-model") in
  _service (snd (initialize fs context w)) =
    loaded_handler dir (prefix_of f) params /\
  fst (initialize fs context w) =
    (if fs_isfile fs model_path then Ok tt
     else Raise (WithContext
                   (RuntimeError ("Missing " +:+ model_path +:+ " file."))
                   MemoryError)) /\
  initialize (with_file model_path fs) context w =
    (Ok tt,
     after w (loaded_handler dir (prefix_of f) params)
       (initialize_events fs dir (prefix_of f))).
Proof.
  intros Hdir Hglob Htype Hparams Hload model_path.
  assert (Heqb : String.eqb (prefix_of f) "TopicalPageRank" ||
                 String.eqb (prefix_of f) "DocSim" = true).
  { destruct Htype as [-> | ->]; reflexivity. }
  rewrite (initialize_run (with_file model_path fs) context dir w Hdir).
  rewrite (initialize_run fs context dir w Hdir).
  cbn [fs_glob fs_isfile fs_load_json with_file].
  rewrite Hglob. cbv zeta. rewrite Hparams, Hload, Heqb.
  rewrite Bool.orb_true_r. fold model_path.
  rewrite String.eqb_refl. cbn [orb].
  destruct (fs_isfile fs model_path); repeat split; reflexivity.
Qed.

(** The directory with the parameters of the ranking model and no model. *)
Lemma missing_model_leaves_handler_loaded_witness :
  _service (snd (initialize (fs_of no_model_dir) (context_of "/m") fresh_world)) =
    loaded_handler "/m" "TopicalPageRank" ranking_params /\
  fst (initialize (fs_of no_model_dir) (context_of "/m") fresh_world) =
    Raise (WithContext
             (RuntimeError "Missing /m/TopicalPageRank-model file.")
             MemoryError).
Proof.
  destruct (missing_model_leaves_handler_loaded (fs_of no_model_dir)
              (context_of "/m") "/m" fresh_world
              "/m/TopicalPageRank-params.json" [] ranking_params)
    as (Hstate & Hresult & _); try reflexivity.
  - left. reflexivity.
  - split; [exact Hstate|exact Hresult].
Defined.

(** ** File names and paths *)

Lemma has_slash_app (s t : string) :
  has_slash (s +:+ t) = has_slash s || has_slash t.
Proof.
  induction s as [|c s IH]; simpl; [reflexivity|].
  rewrite IH. apply Bool.orb_assoc.
Qed.

Lemma has_slash_basename (p : string) : has_slash (basename p) = false.
Proof.
  induction p as [|c p IH]; simpl; [reflexivity|].
  destruct (has_slash p) eqn:Hp; [exact IH|].
  destruct (Ascii.eqb c "/") eqn:Hc; [exact Hp|].
  simpl. rewrite Hc, Hp. reflexivity.
Qed.

Lemma has_slash_split_head (s sep : string) :
  has_slash s = false -> has_slash (split_head s sep) = false.
Proof.
  induction s as [|c s IH]; intros H.
  - destruct sep; reflexivity.
  - cbn [has_slash] in H. apply Bool.orb_false_elim in H as [Hc Hs].
    cbn [split_head].
    destruct (String.prefix sep (String c s)); [reflexivity|].
    cbn [has_slash]. rewrite Hc. exact (IH Hs).
Qed.

Lemma has_slash_prefix_of (f : string) : has_slash (prefix_of f) = false.
Proof. apply has_slash_split_head, has_slash_basename. Qed.

Lemma append_cons (c : ascii) (s t : string) :
  String c s +:+ t = String c (s +:+ t).
Proof. reflexivity. Qed.

Lemma prefix_cons (a b : ascii) (s t : string) :
  String.prefix (String a s) (String b t) =
  if ascii_dec a b then String.prefix s t else false.
Proof. reflexivity. Qed.

Lemma no_leading_slash (p tail : string) :
  has_slash p = false -> String.prefix "/" tail = false ->
  String.prefix "/" (p +:+ tail) = false.
Proof.
  destruct p as [|c p]; intros Hp Htail; [exact Htail|].
  cbn [has_slash] in Hp. apply Bool.orb_false_elim in Hp as [Hc _].
  rewrite append_cons, prefix_cons.
  destruct (ascii_dec "/" c) as [<-|]; [|reflexivity].
  rewrite Ascii.eqb_refl in Hc. discriminate Hc.
Qed.

Lemma posix_join_inside (dir p tail : string) :
  has_slash p = false -> String.prefix "/" tail = false ->
  posix_join dir (p +:+ tail) =
  dir +:+ (if String.eqb dir "" || endswith dir "/" then "" else "/")
      +:+ p +:+ tail.
Proof.
  intros Hp Htail. unfold posix_join.
  rewrite (no_leading_slash p tail Hp Htail).
  destruct (String.eqb dir "" || endswith dir "/"); reflexivity.
Qed.

(** X5.  The prefix derived from a match never holds a slash, whatever path
    [glob] returned; so the two paths [initialize] asks the file system
    about, for the parameters and for the model, are the model directory, a
    slash unless the directory is empty or ends with one, and a file name. *)
Theorem artifact_paths_stay_in_model_dir (dir f : string) :
  let between :=
    if String.eqb dir "" || endswith dir "/" then "" else "/" in
  has_slash (prefix_of f) = false /\
  posix_join dir (prefix_of f +:+ "-params.json") =
    dir +:+ between +:+ prefix_of f +:+ "-params.json" /\
  posix_join dir (prefix_of f +:+ "-model") =
    dir +:+ between +:+ prefix_of f +:+ "-model".
Proof.
  intros between. pose proof (has_slash_prefix_of f) as Hp.
  split; [exact Hp|].
  split; apply posix_join_inside; auto.
Qed.

Lemma basename_join (dir name : string) :
  has_slash name = false -> basename (dir +:+ "/" +:+ name) = name.
Proof.
  intros Hname. induction dir as [|c dir IH].
  - change ("" +:+ "/" +:+ name) with (String "/" name).
    cbn [basename]. rewrite Hname. reflexivity.
  - rewrite append_cons. cbn [basename]. rewrite has_slash_app.
    change ("/" +:+ name) with (String "/" name) at 1.
    cbn [has_slash]. rewrite Ascii.eqb_refl, Bool.orb_true_r. exact IH.
Qed.

(** A string that starts with [sep] inside [q +:+ ch...] starts with it
    inside [q], when [ch] is not a character of [sep]. *)
Lemma prefix_before_char (sep q rest : string) (ch : ascii) :
  contains sep (String ch "") = false ->
  String.prefix sep (q +:+ String ch rest) = true ->
  String.prefix sep q = true.
Proof.
  revert q. induction sep as [|a sep IH]; intros q Hch Hpre.
  - destruct q; reflexivity.
  - cbn [contains] in Hch. apply Bool.orb_false_elim in Hch as [Ha Hsep].
    rewrite prefix_cons in Ha.
    destruct q as [|c q];
      [change ("" +:+ String ch rest) with (String ch rest) in Hpre
      |rewrite append_cons in Hpre];
      rewrite prefix_cons in Hpre.
    + destruct (ascii_dec a ch) as [->|]; [|discriminate Hpre].
      destruct (ascii_dec ch ch); [destruct sep; discriminate Ha|contradiction].
    + rewrite prefix_cons.
      destruct (ascii_dec a c); [|discriminate Hpre].
      exact (IH q Hsep Hpre).
Qed.

Lemma split_head_params (p : string) :
  contains p "-params.json" = false ->
  split_head (p +:+ "-params.json") "-params.json" = p.
Proof.
  induction p as [|a p IH]; intros H; [reflexivity|].
  cbn [contains] in H. apply Bool.orb_false_elim in H as [Ha Hp].
  rewrite append_cons. cbn [split_head].
  destruct (String.prefix "-params.json" (String a (p +:+ "-params.json")))
    eqn:Hpre.
  - exfalso. rewrite prefix_cons in Hpre, Ha.
    destruct (ascii_dec "-" a); [|discriminate Hpre].
    apply prefix_before_char in Hpre; [congruence|reflexivity].
  - f_equal. exact (IH Hp).
Qed.

(** X6.  A parameter file named by the convention gives its name back: for a
    file [dir/p-params.json], where [p] holds no slash and does not itself
    contain the suffix, the prefix derived is [p]; and when [dir] is not
    empty and does not end with a slash, the parameter file that
    [read_model_params] then opens is that same file. *)
Theorem params_file_name_round_trip (dir p : string) :
  has_slash p = false ->
  contains p "-params.json" = false ->
  let f := dir +:+ "/" +:+ p +:+ "-params.json" in
  prefix_of f = p /\
  (dir <> "" -> endswith dir "/" = false ->
   posix_join dir (prefix_of f +:+ "-params.json") = f).
Proof.
  intros Hp Hsuffix f.
  assert (Hprefix : prefix_of f = p).
  { unfold prefix_of, f. rewrite basename_join.
    - apply split_head_params, Hsuffix.
    - rewrite has_slash_app, Hp. reflexivity. }
  split; [exact Hprefix|].
  intros Hdir Hend. rewrite Hprefix.
  rewrite (posix_join_inside dir p "-params.json" Hp eq_refl), Hend.
  apply String.eqb_neq in Hdir. rewrite Hdir. reflexivity.
Qed.

(** The model name [resnet-18] in the directory [/opt/ml/model]. *)
Lemma params_file_name_round_trip_witness :
  prefix_of "/opt/ml/model/resnet-18-params.json" = "resnet-18" /\
  posix_join "/opt/ml/model"
    (prefix_of "/opt/ml/model/resnet-18-params.json" +:+ "-params.json") =
    "/opt/ml/model/resnet-18-params.json".
Proof.
  destruct (params_file_name_round_trip "/opt/ml/model" "resnet-18"
              eq_refl eq_refl) as [Hprefix Hpath].
  split; [exact Hprefix|].
  apply Hpath; [discriminate|reflexivity].
Defined.

(** ** Results depend on the handler, not on the trace *)

Lemma by_handler_ret {A : Type} (a : A) : by_handler (ret a).
Proof. intros w1 w2 H. split; [reflexivity|exact H]. Qed.

Lemma by_handler_raise {A : Type} (e : exn) : by_handler (@raise A e).
Proof. intros w1 w2 H. split; [reflexivity|exact H]. Qed.

Lemma by_handler_lift {A : Type} (r : result A) : by_handler (lift r).
Proof. intros w1 w2 H. split; [reflexivity|exact H]. Qed.

Lemma by_handler_self : by_handler self.
Proof. intros w1 w2 H. split; [simpl; rewrite H; reflexivity|exact H]. Qed.

Lemma by_handler_emit (e : event) : by_handler (emit e).
Proof. intros w1 w2 H. split; [reflexivity|exact H]. Qed.

Lemma by_handler_bind {A B : Type} (m : M A) (k : A -> M B) :
  by_handler m -> (forall a, by_handler (k a)) -> by_handler (bind m k).
Proof.
  intros Hm Hk w1 w2 H. unfold bind.
  destruct (Hm w1 w2 H) as [Hr Hs].
  destruct (m w1) as [r1 v1], (m w2) as [r2 v2]. simpl in Hr, Hs. subst r2.
  destruct r1 as [a|e]; [apply Hk, Hs|split; [reflexivity|exact Hs]].
Qed.

Ltac by_handler_steps :=
  repeat first
    [ apply by_handler_ret | apply by_handler_raise | apply by_handler_lift
    | apply by_handler_self | apply by_handler_emit
    | apply by_handler_bind; [|intros ?] ].

Lemma by_handler_preprocess (request : list entry) :
  by_handler (preprocess request).
Proof.
  unfold preprocess, enter, logging. by_handler_steps.
  destruct (py_eq _ _ || py_eq _ _); [|by_handler_steps].
  generalize (@nil pyval).
  induction request as [|data request IH]; intros acc; simpl.
  - apply by_handler_ret.
  - by_handler_steps; [destruct (data !! "body"); by_handler_steps|apply IH].
Qed.

Lemma by_handler_ranking_loop (fs : FileSystem) (L : Libs) (g l n wd mc : jval)
    (pos : gset string) (model_input : list pyval) (ext : extractor L)
    (acc : list (output L)) :
  by_handler (ranking_loop fs L g l n wd mc pos model_input ext acc).
Proof.
  revert ext acc.
  induction model_input as [|t model_input IH]; intros ext acc; simpl.
  - apply by_handler_ret.
  - apply by_handler_bind; [unfold ranking_step; by_handler_steps|].
    intros best. apply IH.
Qed.

Lemma by_handler_filter_words (stoplist tokens : list text) :
  by_handler (filter_words stoplist tokens).
Proof.
  induction tokens as [|t tokens IH]; simpl.
  - apply by_handler_ret.
  - apply by_handler_bind.
    + destruct (bool_decide (t ∈ stoplist)); by_handler_steps.
    + intros keep. apply by_handler_bind; [exact IH|].
      intros words. apply by_handler_ret.
Qed.

Lemma by_handler_docsim_rows (fs : FileSystem) (L : Libs) (stoplist : list text)
    (rows : list (list text)) (acc : list (similarity L)) :
  by_handler (docsim_rows fs L stoplist rows acc).
Proof.
  revert acc. induction rows as [|row rows IH]; intros acc; simpl.
  - apply by_handler_ret.
  - apply by_handler_bind; [apply by_handler_lift|intros cell0].
    apply by_handler_bind; [apply by_handler_lift|intros tokens1].
    apply by_handler_bind; [apply by_handler_filter_words|intros words1].
    apply by_handler_bind; [apply by_handler_lift|intros cell1].
    apply by_handler_bind; [apply by_handler_lift|intros tokens2].
    apply by_handler_bind; [apply by_handler_filter_words|intros words2].
    apply by_handler_bind; [apply by_handler_self|intros s].
    apply by_handler_bind; [apply by_handler_lift|intros wv].
    apply by_handler_bind; [apply by_handler_lift|intros sim].
    apply IH.
Qed.

Lemma by_handler_docsim_loop (fs : FileSystem) (L : Libs) (stoplist : list text)
    (model_input : list pyval) (acc : list (output L)) :
  by_handler (docsim_loop fs L stoplist model_input acc).
Proof.
  revert acc. induction model_input as [|t model_input IH]; intros acc; simpl.
  - apply by_handler_ret.
  - apply by_handler_bind; [apply by_handler_lift|intros rows].
    apply by_handler_bind; [apply by_handler_docsim_rows|intros sims].
    apply IH.
Qed.

Lemma by_handler_inference (fs : FileSystem) (L : Libs)
    (model_input : list pyval) :
  by_handler (inference fs L model_input).
Proof.
  unfold inference, enter, logging.
  apply by_handler_bind; [apply by_handler_emit|intros _].
  apply by_handler_bind; [apply by_handler_self|intros s].
  destruct (py_eq _ _).
  - do 5 (apply by_handler_bind; [apply by_handler_lift|intros ?]).
    apply by_handler_bind; [apply by_handler_emit|intros _].
    apply by_handler_bind; [apply by_handler_lift|intros ext].
    apply by_handler_ranking_loop.
  - destruct (py_eq _ _); [|by_handler_steps].
    do 3 (apply by_handler_bind; [apply by_handler_lift|intros ?]).
    apply by_handler_docsim_loop.
Qed.

Lemma by_handler_postprocess (L : Libs) (inference_output : list (output L)) :
  by_handler (postprocess L inference_output).
Proof.
  unfold postprocess, enter, logging. by_handler_steps.
  destruct (py_eq _ _ || py_eq _ _); by_handler_steps.
Qed.

Lemma emits_keeps_handler {A : Type} (P : event -> bool) (m : M A) (w : World) :
  emits P m -> _service (snd (m w)) = _service w.
Proof. intros Hm. destruct (Hm w) as (evs & -> & _). reflexivity. Qed.

(** ** The pipeline *)

Lemma preprocess_result (request : list entry) (w : World) :
  fst (preprocess request w) =
  if supported (_service w) then fst (preprocess_loop request [] w)
  else Raise (RuntimeError
                ("Model " +:+ py_str (model_type (_service w)) +:+
                 " not supported!")).
Proof.
  unfold preprocess, supported. unfold_monad. cbn [_service].
  destruct (py_eq _ _ || py_eq _ _); [|reflexivity].
  match goal with
  | |- fst (preprocess_loop _ _ ?w1) = _ =>
      rewrite (quiet_run (preprocess_loop request []) w1),
              (quiet_run (preprocess_loop request []) w)
        by apply quiet_preprocess_loop
  end.
  simpl fst.
  generalize (@nil pyval).
  induction request as [|data request IH]; intros acc; [reflexivity|].
  simpl. unfold bind.
  destruct (data !! "body") as [body|]; [|reflexivity].
  unfold ret, lift. destruct (decode body) as [t|e]; [|reflexivity].
  apply IH.
Qed.

Lemma postprocess_result (L : Libs) (inference_output : list (output L))
    (w : World) :
  fst (postprocess L inference_output w) =
  if supported (_service w) then Ok inference_output
  else Raise (RuntimeError
                ("Model " +:+ py_str (model_type (_service w)) +:+
                 " not supported!")).
Proof.
  unfold postprocess, supported. unfold_monad. cbn [_service].
  destruct (py_eq _ _ || py_eq _ _); reflexivity.
Qed.

Lemma preprocess_world (request : list entry) (w : World) :
  snd (preprocess request w) =
  after w (_service w)
    (Enter c_preprocess ::
     if supported (_service w) then []
     else [Log ERROR "Model {} not supported!"
             (AStr (py_str (model_type (_service w))))]).
Proof.
  unfold preprocess, supported. unfold bind at 1. unfold enter at 1, emit at 1.
  unfold bind at 1. unfold self at 1. cbn [_service].
  destruct (py_eq _ _ || py_eq _ _).
  - rewrite quiet_preprocess_loop. reflexivity.
  - unfold_monad. cbn [_service trace]. unfold after.
    rewrite <- app_assoc. reflexivity.
Qed.

(** What the method [handle] returns, from what [preprocess] and
    [inference] return on the same handler. *)
Lemma pipeline_result (fs : FileSystem) (L : Libs) (data : list entry)
    (context : Context) (w : World) :
  fst (ModelHandler_handle fs L data context w) =
  match fst (preprocess data w) with
  | Ok model_input => fst (inference fs L model_input w)
  | Raise e => Raise e
  end.
Proof.
  unfold ModelHandler_handle.
  unfold bind at 1. unfold enter at 1, emit at 1.
  set (w1 := {| _service := _service w; trace := trace w ++ [Enter c_handle] |}).
  destruct (by_handler_preprocess data w1 w eq_refl) as [Hr1 Hs1].
  rewrite (emits_keeps_handler _ _ w (emits_preprocess data)) in Hs1.
  unfold bind at 1. rewrite <- Hr1.
  destruct (preprocess data w1) as [[model_input|e] w2] eqn:Hpre;
    [|reflexivity].
  simpl in Hs1. cbn [fst].
  destruct (by_handler_inference fs L model_input w2 w Hs1) as [Hr2 Hs2].
  rewrite (emits_keeps_handler _ _ w (emits_inference fs L model_input)) in Hs2.
  unfold bind at 1. rewrite <- Hr2.
  destruct (inference fs L model_input w2) as [[model_out|e] w3]; [|reflexivity].
  simpl in Hs2. cbn [fst].
  rewrite postprocess_result, Hs2.
  assert (Hsup : supported (_service w) = true).
  { pose proof (preprocess_result data w1) as Hp. rewrite Hpre in Hp.
    simpl in Hp. destruct (supported (_service w)); [reflexivity|discriminate]. }
  rewrite Hsup. reflexivity.
Qed.

(** X7.  The method [handle] is [preprocess], then [inference] on its
    output: it returns what [inference] returns ([postprocess] changes
    nothing in it); and when [preprocess] raises it raises the same, having
    done nothing but enter [handle] and [preprocess].  None of this changes
    a field of the handler. *)
Theorem handle_composes_the_methods (fs : FileSystem) (L : Libs)
    (data : list entry) (context : Context) (w : World) :
  (forall e, fst (preprocess data w) = Raise e ->
     ModelHandler_handle fs L data context w =
       (Raise e,
        after w (_service w)
          (Enter c_handle :: new_events w (snd (preprocess data w))))) /\
  (forall model_input, fst (preprocess data w) = Ok model_input ->
     fst (ModelHandler_handle fs L data context w) =
       fst (inference fs L model_input w)) /\
  _service (snd (ModelHandler_handle fs L data context w)) = _service w /\
  (forall model_input,
     _service (snd (inference fs L model_input w)) = _service w) /\
  _service (snd (preprocess data w)) = _service w.
Proof.
  split; [|split; [|split; [|split]]].
  - intros e He.
    unfold ModelHandler_handle.
    unfold bind at 1. unfold enter at 1, emit at 1.
    set (w1 := {| _service := _service w; trace := trace w ++ [Enter c_handle] |}).
    destruct (by_handler_preprocess data w1 w eq_refl) as [Hr1 _].
    rewrite He in Hr1. unfold bind at 1.
    pose proof (preprocess_world data w1) as Hw1.
    rewrite (preprocess_world data w). unfold after at 2.
    rewrite new_events_app.
    destruct (preprocess data w1) as [[x|e'] w2]; [discriminate Hr1|].
    simpl in Hr1, Hw1. injection Hr1 as ->. subst w2.
    unfold after, w1. cbn [_service trace]. rewrite <- app_assoc.
    reflexivity.
  - intros model_input Hpre. rewrite pipeline_result, Hpre. reflexivity.
  - apply (emits_keeps_handler serving_event), emits_ModelHandler_handle.
  - intros model_input.
    apply (emits_keeps_handler serving_event), emits_inference.
  - apply (emits_keeps_handler serving_event), emits_preprocess.
Qed.

(** A request without a body to the ranking handler, and a request with
    one. *)
Lemma handle_composes_the_methods_witness :
  ModelHandler_handle (fs_of ranking_dir) (stub_libs false) [∅]
    (context_of "/m") (world_of "TopicalPageRank") =
    (Raise (AttributeError "decode"),
     after (world_of "TopicalPageRank") (_service (world_of "TopicalPageRank"))
       [Enter c_handle; Enter c_preprocess]) /\
  fst (ModelHandler_handle (fs_of ranking_dir) (stub_libs false) [request_a]
         (context_of "/m") (world_of "TopicalPageRank")) =
    Ok [Keyphrases (L := stub_libs false) [[97%N]]].
Proof.
  destruct (handle_composes_the_methods (fs_of ranking_dir)
              (stub_libs false) [∅] (context_of "/m")
              (world_of "TopicalPageRank")) as (Hraise & _).
  destruct (handle_composes_the_methods (fs_of ranking_dir)
              (stub_libs false) [request_a] (context_of "/m")
              (world_of "TopicalPageRank")) as (_ & Hok & _).
  split.
  - apply (Hraise (AttributeError "decode")). reflexivity.
  - rewrite (Hok [PStr [97%N]]); reflexivity.
Defined.

(** ** Requests that [preprocess] rejects *)

Lemma preprocess_loop_app (good : list entry) (texts : list pyval)
    (request : list entry) (acc : list pyval) (w : World) :
  Forall2 decoded good texts ->
  preprocess_loop (good ++ request) acc w =
  preprocess_loop request (acc ++ texts) w.
Proof.
  intros Hgood. revert acc.
  induction Hgood as [|data out good texts (body & t & Hb & Hd & ->) _ IH];
    intros acc; simpl.
  - rewrite app_nil_r. reflexivity.
  - unfold bind at 1. rewrite Hb. unfold ret at 1, bind at 1, lift at 1.
    rewrite Hd, IH, <- app_assoc. reflexivity.
Qed.

(** X8.  With a supported type, [preprocess] raises at the first entry that
    it cannot decode, whatever follows it in the batch: [AttributeError]
    when the entry has no body ([None] has no [decode]), and
    [UnicodeDecodeError] when its body is not UTF-8. *)
Theorem preprocess_raises_at_first_bad_entry (w : World)
    (good : list entry) (texts : list pyval) (bad : entry)
    (rest : list entry) :
  supported (_service w) = true ->
  Forall2 decoded good texts ->
  (bad !! "body" = None ->
   fst (preprocess (good ++ bad :: rest) w) = Raise (AttributeError "decode")) /\
  (forall body,
     bad !! "body" = Some body ->
     utf8_decode (Byte.to_N <$> body) = None ->
     fst (preprocess (good ++ bad :: rest) w) = Raise UnicodeDecodeError).
Proof.
  intros Hsup Hgood.
  rewrite preprocess_result, Hsup.
  rewrite (preprocess_loop_app good texts (bad :: rest) [] w Hgood).
  simpl. unfold bind at 1 3. split.
  - intros ->. reflexivity.
  - intros body -> Hbody. unfold ret, bind, lift, decode.
    rewrite Hbody. reflexivity.
Qed.

(** A batch whose second entry has no body, and one whose second entry is
    the byte [ff]. *)
Lemma preprocess_raises_at_first_bad_entry_witness :
  fst (preprocess [request_a; ∅; request_b] (world_of "TopicalPageRank")) =
    Raise (AttributeError "decode") /\
  fst (preprocess [request_a; {[ "body" := [xff] ]}; request_b]
         (world_of "DocSim")) = Raise UnicodeDecodeError.
Proof.
  assert (Hgood : Forall2 decoded [request_a] [PStr [97%N]]).
  { repeat constructor. exists [x61], [97%N]. repeat split; reflexivity. }
  split.
  - apply (preprocess_raises_at_first_bad_entry (world_of "TopicalPageRank")
             [request_a] [PStr [97%N]] ∅ [request_b] eq_refl Hgood).
    reflexivity.
  - apply (preprocess_raises_at_first_bad_entry (world_of "DocSim")
             [request_a] [PStr [97%N]] {[ "body" := [xff] ]} [request_b]
             eq_refl Hgood) with (body := [xff]); reflexivity.
Defined.

(** ** The module-level [handle] *)

Lemma agree_same {A : Type} (P : event -> bool) (h : ModelHandler)
    (m : M A) :
  emits P m -> agree h m m.
Proof.
  intros Hm w Hw. split; [reflexivity|].
  rewrite (emits_keeps_handler P m w Hm). exact Hw.
Qed.

Lemma agree_quiet {A : Type} (h : ModelHandler) (m : M A) :
  quiet m -> agree h m m.
Proof. intros Hm. apply (agree_same (fun _ => true)), emits_quiet, Hm. Qed.

Lemma agree_lift {A : Type} (h : ModelHandler) (r r' : result A) :
  r = r' -> agree h (lift r) (lift r').
Proof. intros -> w Hw. split; [reflexivity|exact Hw]. Qed.

Lemma agree_bind {A B : Type} (h : ModelHandler) (m m' : M A)
    (k k' : A -> M B) :
  agree h m m' -> (forall a, agree h (k a) (k' a)) ->
  agree h (bind m k) (bind m' k').
Proof.
  intros Hm Hk w Hw. destruct (Hm w Hw) as [Heq Hs].
  unfold bind. rewrite <- Heq.
  destruct (m w) as [[a|e] w1]; simpl in Hs;
    [apply Hk, Hs|split; [reflexivity|exact Hs]].
Qed.

Lemma agree_self {B : Type} (h : ModelHandler) (k k' : ModelHandler -> M B) :
  agree h (k h) (k' h) -> agree h (bind self k) (bind self k').
Proof.
  intros Hk w Hw. unfold bind, self. rewrite Hw. apply Hk, Hw.
Qed.

Section SameAnswers.

Variables (fs fs' : FileSystem) (L : Libs) (h : ModelHandler).
Hypothesis Hlib : same_library_answers L (model h) fs fs'.

Lemma agree_ranking_step (g l n wd mc : jval) (pos : gset string)
    (t : pyval) (ext : extractor L) :
  agree h (ranking_step fs L g l n wd mc pos t ext)
          (ranking_step fs' L g l n wd mc pos t ext).
Proof.
  destruct Hlib as (_ & Hload & Hsel & Hweight & Hbest & _ & _).
  unfold ranking_step.
  apply agree_bind; [apply agree_lift, Hload|intros ext1].
  apply agree_bind; [apply agree_lift, Hsel|intros ext2].
  apply agree_self.
  apply agree_bind; [apply agree_lift, Hweight|intros ext3].
  apply agree_lift, Hbest.
Qed.

Lemma agree_ranking_loop (g l n wd mc : jval) (pos : gset string)
    (model_input : list pyval) (ext : extractor L) (acc : list (output L)) :
  agree h (ranking_loop fs L g l n wd mc pos model_input ext acc)
          (ranking_loop fs' L g l n wd mc pos model_input ext acc).
Proof.
  revert ext acc.
  induction model_input as [|t model_input IH]; intros ext acc; simpl.
  - apply agree_quiet, quiet_ret.
  - apply agree_bind; [apply agree_ranking_step|intros best; apply IH].
Qed.

Lemma agree_docsim_rows (stoplist : list text) (rows : list (list text))
    (acc : list (similarity L)) :
  agree h (docsim_rows fs L stoplist rows acc)
          (docsim_rows fs' L stoplist rows acc).
Proof.
  destruct Hlib as (_ & _ & _ & _ & _ & _ & Hpre).
  revert acc. induction rows as [|row rows IH]; intros acc; simpl.
  - apply agree_quiet, quiet_ret.
  - apply agree_bind; [apply agree_quiet, quiet_lift|intros cell0].
    apply agree_bind; [apply agree_lift, Hpre|intros tokens1].
    apply agree_bind; [apply agree_quiet, quiet_filter_words|intros words1].
    apply agree_bind; [apply agree_quiet, quiet_lift|intros cell1].
    apply agree_bind; [apply agree_lift, Hpre|intros tokens2].
    apply agree_bind; [apply agree_quiet, quiet_filter_words|intros words2].
    apply agree_self.
    apply agree_bind; [apply agree_quiet, quiet_lift|intros wv].
    apply agree_bind; [apply agree_quiet, quiet_lift|intros sim].
    apply IH.
Qed.

Lemma agree_docsim_loop (stoplist : list text) (model_input : list pyval)
    (acc : list (output L)) :
  agree h (docsim_loop fs L stoplist model_input acc)
          (docsim_loop fs' L stoplist model_input acc).
Proof.
  revert acc. induction model_input as [|t model_input IH]; intros acc; simpl.
  - apply agree_quiet, quiet_ret.
  - apply agree_bind; [apply agree_quiet, quiet_lift|intros rows].
    apply agree_bind; [apply agree_docsim_rows|intros sims].
    apply IH.
Qed.

Lemma agree_inference (model_input : list pyval) :
  agree h (inference fs L model_input) (inference fs' L model_input).
Proof.
  pose proof Hlib as (Hnew & _ & _ & _ & _ & Hstop & _).
  unfold inference.
  apply agree_bind;
    [apply (agree_same serving_event), emits_emit; reflexivity|intros _].
  apply agree_self.
  destruct (py_eq (model_type h) "TopicalPageRank").
  - do 5 (apply agree_bind; [apply agree_quiet, quiet_lift|intros ?]).
    apply agree_bind;
      [apply (agree_same serving_event), emits_emit; reflexivity|intros _].
    apply agree_bind; [apply agree_lift, Hnew|intros ext].
    apply agree_ranking_loop.
  - destruct (py_eq (model_type h) "DocSim").
    + apply agree_bind; [apply agree_lift, Hstop|intros words].
      do 2 (apply agree_bind; [apply agree_quiet, quiet_lift|intros ?]).
      apply agree_docsim_loop.
    + apply (agree_same serving_event). unfold logging. emits_steps.
Qed.

Lemma agree_ModelHandler_handle (data : list entry)
    (context context' : Context) :
  agree h (ModelHandler_handle fs L data context)
          (ModelHandler_handle fs' L data context').
Proof.
  unfold ModelHandler_handle.
  apply agree_bind;
    [apply (agree_same serving_event), emits_emit; reflexivity|intros _].
  apply agree_bind;
    [apply (agree_same serving_event), emits_preprocess|intros model_input].
  apply agree_bind; [apply agree_inference|intros model_out].
  apply (agree_same serving_event), emits_postprocess.
Qed.

End SameAnswers.

(** X9.  Once the handler is initialized, a call of the module-level
    [handle] does not run [initialize] again: the handler itself reads no
    file and does not look at the context.  The file system reaches the call
    only through the libraries: on two file systems where they answer the
    same, the topic model being opened at the path the handler stores, the
    call returns the same and leaves the same world, whatever the two
    contexts are.  It changes no field of the handler: the model type, the
    parameters and the model stay what [initialize] made them, whatever is
    requested. *)
Theorem serving_uses_only_the_handler (fs fs' : FileSystem) (L : Libs)
    (data : option (list entry)) (context context' : Context) (w : World) :
  initialized (_service w) = true ->
  same_library_answers L (model (_service w)) fs fs' ->
  handle fs L data context w = handle fs' L data context' w /\
  _service (snd (handle fs L data context w)) = _service w.
Proof.
  intros Hflag Hlib. split.
  - rewrite !handle_initialized by exact Hflag.
    destruct data as [batch|]; [|reflexivity].
    refine (proj1 (agree_bind (_service w) _ _ _ _ _ _ w eq_refl)).
    + apply agree_ModelHandler_handle, Hlib.
    + intros out. apply agree_quiet, quiet_ret.
  - destruct (emits_handle_initialized fs L data context w Hflag)
      as (evs & -> & _).
    reflexivity.
Qed.

(** The ranking handler and a library that opens the topic model, with the
    parameter file gone from the directory and another context. *)
Lemma serving_uses_only_the_handler_witness :
  handle (fs_of ranking_dir) disk_libs (Some [request_a])
    (context_of "/m") (world_of "TopicalPageRank") =
  handle (fs_of only_model_dir) disk_libs (Some [request_a])
    {| system_properties := ∅ |} (world_of "TopicalPageRank") /\
  _service
    (snd (handle (fs_of ranking_dir) disk_libs (Some [request_a])
            (context_of "/m") (world_of "TopicalPageRank"))) =
  _service (world_of "TopicalPageRank").
Proof.
  apply (serving_uses_only_the_handler (fs_of ranking_dir)
           (fs_of only_model_dir) disk_libs (Some [request_a])
           (context_of "/m") {| system_properties := ∅ |}
           (world_of "TopicalPageRank")).
  - reflexivity.
  - repeat split; reflexivity.
Defined.

(** What the libraries read does reach the call: with the topic model gone
    from the directory the same request is answered with the library's
    exception. *)
Lemma serving_reads_files_through_the_libraries :
  fst (handle (fs_of ranking_dir) disk_libs (Some [request_a])
         (context_of "/m") (world_of "TopicalPageRank")) =
    Ok (Some [Keyphrases (L := disk_libs) [[97%N]]]) /\
  fst (handle (fs_of no_model_dir) disk_libs (Some [request_a])
         (context_of "/m") (world_of "TopicalPageRank")) =
    Raise (LibraryError "FileNotFoundError" "/m/TopicalPageRank-model").
Proof. vm_compute. split; reflexivity. Qed.

Lemma handle_uninitialized (fs : FileSystem) (L : Libs)
    (data : option (list entry)) (context : Context) (w : World) :
  initialized (_service w) = false ->
  handle fs L data context w =
  match initialize fs context w with
  | (Ok _, w1) => handle fs L data context w1
  | (Raise e, w1) => (Raise e, w1)
  end.
Proof.
  intros Hflag. unfold handle at 1. unfold bind at 1. unfold self at 1.
  rewrite Hflag. simpl negb. cbv iota. unfold bind at 1.
  pose proof (initialize_sets_flag fs context w) as Hset.
  destruct (initialize fs context w) as [[[]|e] w1]; [|reflexivity].
  simpl in Hset. rewrite (handle_initialized fs L data context w1 Hset).
  destruct data; reflexivity.
Qed.

Lemma handle_Some_not_None (fs : FileSystem) (L : Libs) (batch : list entry)
    (context : Context) (w : World) :
  fst (handle fs L (Some batch) context w) <> Ok None.
Proof.
  assert (Hinit : forall w1, initialized (_service w1) = true ->
            fst (handle fs L (Some batch) context w1) <> Ok None).
  { intros w1 Hflag. rewrite (handle_initialized _ _ _ _ _ Hflag).
    unfold bind, ret.
    destruct (ModelHandler_handle fs L batch context w1) as [[out|e] w2];
      discriminate. }
  destruct (initialized (_service w)) eqn:Hflag; [exact (Hinit w Hflag)|].
  rewrite (handle_uninitialized _ _ _ _ _ Hflag).
  pose proof (initialize_sets_flag fs context w) as Hset.
  destruct (initialize fs context w) as [[[]|e] w1]; [|discriminate].
  exact (Hinit w1 Hset).
Qed.

(** X10.  The first call of the module-level [handle] runs [initialize],
    also when there is no batch.  When [initialize] raises, the call raises
    the same and the request is not looked at: the world is the one
    [initialize] left.  When it returns, the request is served by the
    handler it left.  So [handle] answers [None] exactly when there is no
    batch and, if the handler still had to be initialized, [initialize]
    returned; a batch never gets [None]. *)
Theorem first_handle_initializes (fs : FileSystem) (L : Libs)
    (data : option (list entry)) (context : Context) (w : World) :
  initialized (_service w) = false ->
  (forall e, fst (initialize fs context w) = Raise e ->
     handle fs L data context w = (Raise e, snd (initialize fs context w))) /\
  (fst (initialize fs context w) = Ok tt ->
     handle fs L data context w =
       handle fs L data context (snd (initialize fs context w))) /\
  (fst (handle fs L data context w) = Ok None <->
     data = None /\ fst (initialize fs context w) = Ok tt).
Proof.
  intros Hflag. pose proof (handle_uninitialized fs L data context w Hflag) as H.
  pose proof (initialize_sets_flag fs context w) as Hset.
  destruct (initialize fs context w) as [[[]|e] w1] eqn:Hinit; simpl in *.
  - split; [discriminate|]. split; [intros _; exact H|].
    split.
    + intros Hnone. split; [|reflexivity].
      destruct data as [batch|]; [|reflexivity].
      rewrite H in Hnone. exfalso.
      exact (handle_Some_not_None fs L batch context w1 Hnone).
    + intros [-> _]. rewrite H.
      rewrite (handle_initialized fs L None context w1 Hset). reflexivity.
  - split; [intros e' [= <-]; exact H|]. split; [discriminate|].
    rewrite H. simpl. split; [discriminate|intros [_ Hx]; discriminate Hx].
Qed.

(** The freshly loaded module, with an empty directory and with the
    directory of the ranking model, and no batch. *)
Lemma first_handle_initializes_witness :
  handle (fs_of []) (stub_libs false) None (context_of "/m") fresh_world =
    (Raise IndexError,
     snd (initialize (fs_of []) (context_of "/m") fresh_world)) /\
  fst (handle (fs_of ranking_dir) (stub_libs false) None (context_of "/m")
         fresh_world) = Ok None.
Proof.
  destruct (first_handle_initializes (fs_of []) (stub_libs false) None
              (context_of "/m") fresh_world eq_refl) as (Hraise & _).
  destruct (first_handle_initializes (fs_of ranking_dir) (stub_libs false) None
              (context_of "/m") fresh_world eq_refl) as (_ & _ & Hnone).
  split.
  - apply Hraise. reflexivity.
  - apply Hnone. split; reflexivity.
Defined.

Lemma handle_batch_result (fs : FileSystem) (L : Libs) (batch : list entry)
    (context : Context) (w : World) :
  initialized (_service w) = true ->
  fst (handle fs L (Some batch) context w) =
  match fst (preprocess batch w) with
  | Ok model_input =>
      match fst (inference fs L model_input w) with
      | Ok out => Ok (Some out)
      | Raise e => Raise e
      end
  | Raise e => Raise e
  end.
Proof.
  intros Hflag. rewrite (handle_initialized fs L _ context w Hflag).
  pose proof (pipeline_result fs L batch context w) as Hp.
  unfold bind, ret.
  destruct (ModelHandler_handle fs L batch context w) as [[out|e] w1];
    simpl in Hp |- *;
    destruct (fst (preprocess batch w)) as [model_input|e'];
    first [discriminate Hp | rewrite <- Hp; reflexivity | congruence].
Qed.

Lemma preprocess_decoded (w : World) (request : list entry)
    (texts : list pyval) :
  supported (_service w) = true ->
  Forall2 decoded request texts ->
  fst (preprocess request w) = Ok texts.
Proof.
  intros Hsup Hdec. rewrite preprocess_result, Hsup.
  apply preprocess_loop_spec. exists texts. auto.
Qed.

Lemma inference_docsim_result (fs : FileSystem) (L : Libs)
    (model_input : list pyval)
    (w : World) :
  model_type (_service w) = Some "DocSim" ->
  fst (inference fs L model_input w) =
  match stopwords_words L fs with
  | Ok _ => Raise (UnboundLocalError "language")
  | Raise e => Raise e
  end.
Proof.
  intros Htype. unfold inference. unfold bind at 1. unfold enter at 1, emit at 1.
  unfold bind at 1. unfold self at 1. cbn [_service].
  rewrite Htype. change (py_eq (Some "DocSim") "TopicalPageRank") with false.
  change (py_eq (Some "DocSim") "DocSim") with true. cbv iota.
  unfold bind at 1, lift at 1.
  destruct (stopwords_words L fs) as [words|e]; reflexivity.
Qed.

(** ** Requests to a handler whose initialization failed *)

(** X11.  A handler whose [initialize] failed is initialized all the same,
    and a batch sent to it afterwards gets the error of its type: after a
    failure for want of a matching file, with the type still [None], the
    [RuntimeError] for the model [None]; after any failure with a first
    match whose prefix is not a supported type, the [RuntimeError] naming
    that prefix. *)
Theorem batch_after_failed_initialize (fs fs' : FileSystem) (L : Libs)
    (context context' : Context) (w : World) (batch : list entry) :
  model_type (_service w) = None ->
  let model_dir := system_properties context !! "model_dir" in
  let w1 := snd (initialize fs context w) in
  (fs_glob fs (params_pattern model_dir) = [] ->
   fst (handle fs' L (Some batch) context' w1) =
     Raise (RuntimeError "Model None not supported!")) /\
  (forall f rest,
     fs_glob fs (params_pattern model_dir) = f :: rest ->
     prefix_of f <> "TopicalPageRank" -> prefix_of f <> "DocSim" ->
     fst (handle fs' L (Some batch) context' w1) =
       Raise (RuntimeError ("Model " +:+ prefix_of f +:+ " not supported!"))).
Proof.
  intros Hnone model_dir w1.
  assert (Hflag : initialized (_service w1) = true)
    by apply initialize_sets_flag.
  assert (Hres : supported (_service w1) = false ->
            fst (handle fs' L (Some batch) context' w1) =
            Raise (RuntimeError
                     ("Model " +:+ py_str (model_type (_service w1)) +:+
                      " not supported!"))).
  { intros Hsup. rewrite (handle_batch_result fs' L batch context' w1 Hflag).
    rewrite preprocess_result, Hsup. reflexivity. }
  split.
  - intros Hglob.
    assert (Htype : model_type (_service w1) = None).
    { subst w1 model_dir.
      destruct (system_properties context !! "model_dir") as [dir|] eqn:Hdir.
      - rewrite (initialize_run fs context dir w Hdir), Hglob. exact Hnone.
      - rewrite (initialize_run_no_dir fs context w Hdir), Hglob. exact Hnone. }
    rewrite Hres; unfold supported; rewrite Htype; reflexivity.
  - intros f rest Hglob Hr Hs.
    pose proof (initialize_model_type fs context w f rest Hglob) as Htype.
    fold w1 in Htype.
    rewrite Hres; unfold supported; rewrite Htype; [reflexivity|].
    simpl. apply String.eqb_neq in Hr, Hs. rewrite Hr, Hs. reflexivity.
Qed.

(** The freshly loaded module, initialized on an empty directory and on the
    directory of an unknown model type. *)
Lemma batch_after_failed_initialize_witness :
  fst (handle (fs_of ranking_dir) (stub_libs false) (Some [request_a])
         (context_of "/m")
         (snd (initialize (fs_of []) (context_of "/m") fresh_world))) =
    Raise (RuntimeError "Model None not supported!") /\
  fst (handle (fs_of ranking_dir) (stub_libs false) (Some [request_a])
         (context_of "/m")
         (snd (initialize (fs_of unsupported_dir) (context_of "/m")
                 fresh_world))) =
    Raise (RuntimeError "Model resnet-18 not supported!").
Proof.
  split.
  - apply (batch_after_failed_initialize (fs_of []) (fs_of ranking_dir)
             (stub_libs false) (context_of "/m") (context_of "/m") fresh_world
             [request_a] eq_refl).
    reflexivity.
  - apply (batch_after_failed_initialize (fs_of unsupported_dir)
             (fs_of ranking_dir) (stub_libs false) (context_of "/m")
             (context_of "/m") fresh_world [request_a] eq_refl)
      with (f := "/m/resnet-18-params.json") (rest := []);
      [reflexivity|vm_compute; discriminate|vm_compute; discriminate].
Defined.

(** X12.  When the first match has the prefix of the ranking model and its
    parameter file is not there, [initialize] fails with the type set and
    the parameters still [None]; a batch of decodable requests sent to the
    handler afterwards passes [preprocess] and fails in [inference] with
    [TypeError], from subscripting [None]. *)
Theorem batch_after_missing_parameters (fs fs' : FileSystem) (L : Libs)
    (context context' : Context) (dir : string) (w : World) (f : string)
    (rest : list string) (batch : list entry) (texts : list pyval) :
  model_params (_service w) = JNull ->
  system_properties context !! "model_dir" = Some dir ->
  fs_glob fs (params_pattern (Some dir)) = f :: rest ->
  prefix_of f = "TopicalPageRank" ->
  fs_isfile fs (posix_join dir (prefix_of f +:+ "-params.json")) = false ->
  Forall2 decoded batch texts ->
  let w1 := snd (initialize fs context w) in
  model_type (_service w1) = Some "TopicalPageRank" /\
  model_params (_service w1) = JNull /\
  fst (handle fs' L (Some batch) context' w1) = Raise TypeError.
Proof.
  intros Hparams Hdir Hglob Hprefix Hfile Hdec w1.
  assert (Hflag : initialized (_service w1) = true)
    by apply initialize_sets_flag.
  assert (Hw1 : _service w1 =
                set_model_type (Some "TopicalPageRank")
                  (set_initialized true (_service w))).
  { subst w1. rewrite (initialize_run fs context dir w Hdir), Hglob.
    cbv zeta. rewrite Hfile, Hprefix. reflexivity. }
  assert (Htype : model_type (_service w1) = Some "TopicalPageRank")
    by (rewrite Hw1; reflexivity).
  assert (Hnull : model_params (_service w1) = JNull)
    by (rewrite Hw1; exact Hparams).
  split; [exact Htype|]. split; [exact Hnull|].
  rewrite (handle_batch_result fs' L batch context' w1 Hflag).
  assert (Hsup : supported (_service w1) = true)
    by (unfold supported; rewrite Htype; reflexivity).
  rewrite (preprocess_decoded w1 batch texts Hsup Hdec).
  unfold inference. unfold_monad. cbn [_service].
  rewrite (py_eq_true _ _ Htype), Hnull. reflexivity.
Qed.

(** A directory where the parameter file of the ranking prefix is itself a
    directory, so no file. *)
Lemma batch_after_missing_parameters_witness :
  let fs := fs_of [("/m/TopicalPageRank-params.json", Directory)] in
  fst (initialize fs (context_of "/m") fresh_world) =
    Raise (RuntimeError "Missing /m/TopicalPageRank-params.json file.") /\
  fst (handle fs (stub_libs false) (Some [request_a]) (context_of "/m")
         (snd (initialize fs (context_of "/m") fresh_world))) =
    Raise TypeError.
Proof.
  intros fs. split; [vm_compute; reflexivity|].
  apply (batch_after_missing_parameters fs fs (stub_libs false)
           (context_of "/m") (context_of "/m") "/m" fresh_world
           "/m/TopicalPageRank-params.json" [] [request_a] [PStr [97%N]]);
    try reflexivity.
  repeat constructor. exists [x61], [97%N]. repeat split; reflexivity.
Defined.

(** ** The similarity model end to end *)

(** X13.  An initialized handler of the similarity type answers no batch:
    every call of [handle] with a batch raises, and when the bodies decode
    and the stop-word corpus loads the exception is the [UnboundLocalError]
    for [language].  Only the call without a batch returns. *)
Theorem similarity_handler_answers_no_batch (fs : FileSystem) (L : Libs)
    (context : Context) (w : World) (batch : list entry) :
  initialized (_service w) = true ->
  model_type (_service w) = Some "DocSim" ->
  (exists e, fst (handle fs L (Some batch) context w) = Raise e) /\
  (forall texts words,
     Forall2 decoded batch texts -> stopwords_words L fs = Ok words ->
     fst (handle fs L (Some batch) context w) =
       Raise (UnboundLocalError "language")) /\
  handle fs L None context w = (Ok None, w).
Proof.
  intros Hflag Htype.
  assert (Hsup : supported (_service w) = true)
    by (unfold supported; rewrite Htype; reflexivity).
  rewrite (handle_batch_result fs L batch context w Hflag).
  split; [|split].
  - destruct (fst (preprocess batch w)) as [model_input|e]; [|eauto].
    rewrite (inference_docsim_result fs L model_input w Htype).
    destruct (stopwords_words L fs); eauto.
  - intros texts words Hdec Hwords.
    rewrite (preprocess_decoded w batch texts Hsup Hdec).
    rewrite (inference_docsim_result fs L texts w Htype), Hwords. reflexivity.
  - apply (handle_initialized fs L None context w Hflag).
Qed.

(** The handler that [initialize] leaves for the directory of the
    similarity model, and a request. *)
Lemma similarity_handler_answers_no_batch_witness :
  let w := snd (initialize (fs_of docsim_dir) (context_of "/m") fresh_world) in
  fst (initialize (fs_of docsim_dir) (context_of "/m") fresh_world) = Ok tt /\
  fst (handle (fs_of docsim_dir) (stub_libs false) (Some [request_a])
         (context_of "/m") w) = Raise (UnboundLocalError "language").
Proof.
  intros w. split; [vm_compute; reflexivity|].
  destruct (similarity_handler_answers_no_batch (fs_of docsim_dir)
              (stub_libs false) (context_of "/m") w [request_a]
              eq_refl eq_refl) as (_ & H & _).
  apply (H [PStr [97%N]] (fun _ => Ok [])); [|reflexivity].
  repeat constructor. exists [x61], [97%N]. repeat split; reflexivity.
Defined.

(** ** The ranking branch: parameters and documents *)

(** X14.  In ranking mode the five parameters are read in the order
    grammar, language, normalization, window, max_count, before anything
    else happens: when the parameters are a JSON object that lacks one of
    them, [inference] raises the [KeyError] of the first one lacking,
    whatever the batch, and the extractor is not constructed. *)
Theorem ranking_missing_parameter (fs : FileSystem) (L : Libs) (w : World)
    (model_input : list pyval) (m : gmap string jval)
    (present : list string) (key : string) (later : list string) :
  model_type (_service w) = Some "TopicalPageRank" ->
  model_params (_service w) = JObj m ->
  ranking_keys = present ++ key :: later ->
  Forall (fun k => is_Some (m !! k)) present ->
  m !! key = None ->
  inference fs L model_input w =
    (Raise (KeyError key), after w (_service w) [Enter c_inference]).
Proof.
  intros Htype Hparams Hkeys Hpresent Hkey.
  assert (Hsub : forall k, subscript (JObj m) k =
                   match m !! k with Some v => Ok v | None => Raise (KeyError k) end)
    by reflexivity.
  unfold inference. unfold bind at 1. unfold enter at 1, emit at 1.
  unfold bind at 1. unfold self at 1. cbn [_service].
  rewrite (py_eq_true _ _ Htype), Hparams. cbv iota.
  unfold ranking_keys in Hkeys.
  repeat match goal with
         | H : Forall _ (_ :: _) |- _ => apply Forall_cons in H as [[? ?] H]
         | H : _ :: _ = (_ :: _) ++ _ |- _ =>
             rewrite <- app_comm_cons in H; injection H as <- H
         | H : _ :: _ = [] ++ _ |- _ => simpl in H; injection H as <- H
         | H : [] = _ ++ _ :: _ |- _ =>
             exfalso; destruct present; discriminate H
         | H : _ :: _ = ?p ++ _ |- _ => destruct p
         end;
    unfold bind, lift; rewrite !Hsub;
    repeat match goal with
           | H : ?m !! ?k = _ |- context [?m !! ?k] => rewrite H
           end;
    reflexivity.
Qed.

(** Parameters without [window]. *)
Lemma ranking_missing_parameter_witness :
  inference (fs_of ranking_dir) (stub_libs false) [PStr [97%N]]
    (ranking_world (JObj params_without_window)) =
  (Raise (KeyError "window"),
   after (ranking_world (JObj params_without_window))
     (_service (ranking_world (JObj params_without_window)))
     [Enter c_inference]).
Proof.
  apply (ranking_missing_parameter (fs_of ranking_dir) (stub_libs false)
           (ranking_world (JObj params_without_window)) [PStr [97%N]]
           params_without_window
           ["grammar"; "language"; "normalization"] "window" ["max_count"]);
    try reflexivity.
  repeat constructor; eexists; vm_compute; reflexivity.
Defined.

Lemma ranking_step_rejected (fs : FileSystem) (L : Libs) (g l n wd mc : jval)
    (pos : gset string) (t : pyval) (ext : extractor L) (w : World) (e : exn) :
  pke_load_document L fs ext t l n = Raise e ->
  fst (ranking_step fs L g l n wd mc pos t ext w) = Raise e.
Proof. intros H. unfold ranking_step. unfold_monad. rewrite H. reflexivity. Qed.

Lemma ranking_loop_rejected (fs : FileSystem) (L : Libs) (g l n wd mc : jval)
    (pos : gset string) (t : pyval) (e : exn) (model_input : list pyval) :
  (forall ext, pke_load_document L fs ext t l n = Raise e) ->
  t ∈ model_input ->
  forall (ext : extractor L) (acc : list (output L)) (w : World),
    exists e',
      fst (ranking_loop fs L g l n wd mc pos model_input ext acc w) = Raise e'.
Proof.
  intros Hbad. induction model_input as [|x model_input IH]; intros Hin.
  - apply elem_of_nil in Hin. contradiction.
  - intros ext acc w. simpl. unfold bind at 1.
    rewrite (quiet_run (ranking_step fs L g l n wd mc pos x ext) w)
      by apply quiet_ranking_step.
    destruct (fst (ranking_step fs L g l n wd mc pos x ext w)) as [best|e']
      eqn:Hstep; [|eauto].
    apply elem_of_cons in Hin as [<-|Hin].
    + rewrite (ranking_step_rejected fs L g l n wd mc pos t ext w e (Hbad ext))
        in Hstep.
      discriminate Hstep.
    + apply (IH Hin).
Qed.

(** X15.  One rejected document fails the batch: in ranking mode, when the
    library's [load_document] raises on a text whatever the extractor
    holds, [inference] raises on every batch that contains this text, and
    returns no result for the other texts either. *)
Theorem rejected_document_fails_the_batch (fs : FileSystem) (L : Libs)
    (w : World)
    (model_input : list pyval) (t : pyval) (e : exn) :
  model_type (_service w) = Some "TopicalPageRank" ->
  t ∈ model_input ->
  (forall ext l n, pke_load_document L fs ext t l n = Raise e) ->
  exists e', fst (inference fs L model_input w) = Raise e'.
Proof.
  intros Htype Hin Hbad.
  unfold inference. unfold bind at 1. unfold enter at 1, emit at 1.
  unfold bind at 1. unfold self at 1. cbn [_service].
  rewrite (py_eq_true _ _ Htype). cbv iota.
  unfold bind at 1, lift at 1.
  destruct (subscript _ "grammar") as [g|]; [|eauto].
  unfold bind at 1, lift at 1.
  destruct (subscript _ "language") as [l|]; [|eauto].
  unfold bind at 1, lift at 1.
  destruct (subscript _ "normalization") as [n|]; [|eauto].
  unfold bind at 1, lift at 1.
  destruct (subscript _ "window") as [wd|]; [|eauto].
  unfold bind at 1, lift at 1.
  destruct (subscript _ "max_count") as [mc|]; [|eauto].
  unfold bind at 1. unfold enter at 1, emit at 1.
  unfold bind at 1, lift at 1.
  destruct (pke_TopicalPageRank L fs) as [ext0|]; [|eauto].
  apply (ranking_loop_rejected fs L g l n wd mc _ t e); auto.
Qed.

(** A table among the texts: the stand-in extractor loads texts only. *)
Lemma rejected_document_fails_the_batch_witness :
  exists e',
    fst (inference (fs_of ranking_dir) (stub_libs false)
           [PStr [97%N]; PFrame []; PStr [98%N]]
           (world_of "TopicalPageRank")) = Raise e'.
Proof.
  apply (rejected_document_fails_the_batch (fs_of ranking_dir) (stub_libs false)
           (world_of "TopicalPageRank") [PStr [97%N]; PFrame []; PStr [98%N]]
           (PFrame []) (LibraryError "TypeError" "")).
  - reflexivity.
  - apply elem_of_cons. right. apply elem_of_cons. left. reflexivity.
  - reflexivity.
Defined.

Lemma threaded_prefix {S T K : Type} (step : S -> T -> result (K * S))
    (xs ys : list T) (s : S) (ks : list K) :
  threaded step s (xs ++ ys) ks -> threaded step s xs (take (length xs) ks).
Proof.
  revert s ks. induction xs as [|x xs IH]; intros s ks; simpl.
  - intros _. exact I.
  - destruct ks as [|k ks]; [tauto|].
    intros (s' & Hstep & Hrest). simpl. exists s'. split; [exact Hstep|].
    exact (IH s' ks Hrest).
Qed.

Lemma ranking_loop_of_threaded (fs : FileSystem) (L : Libs) (g l n wd mc : jval)
    (model_input : list pyval) (ext : extractor L)
    (ks : list (keyphrases L)) (acc : list (output L)) (w : World) :
  threaded (step_result fs L g l n wd mc w) ext model_input ks ->
  ranking_loop fs L g l n wd mc ranking_pos model_input ext acc w =
    (Ok (acc ++ (Keyphrases <$> ks)), w).
Proof.
  revert ext ks acc.
  induction model_input as [|t model_input IH]; intros ext ks acc;
    destruct ks as [|k ks]; simpl; try tauto.
  - intros _. rewrite app_nil_r. reflexivity.
  - intros (ext' & Hstep & Hrest). unfold bind at 1.
    rewrite (quiet_run (ranking_step fs L _ _ _ _ _ _ _ _) w)
      by apply quiet_ranking_step.
    unfold step_result in Hstep. rewrite Hstep. simpl.
    rewrite (IH ext' ks _ Hrest), <- app_assoc. reflexivity.
Qed.

(** X16.  In ranking mode the results for the first texts of a batch do not
    depend on the texts after them: when [inference] returns on a batch, it
    returns on every initial part of the batch, with the results it gave
    for those texts. *)
Theorem ranking_results_of_a_prefix (fs : FileSystem) (L : Libs) (w : World)
    (first rest : list pyval) (outs : list (output L)) (w' : World) :
  model_type (_service w) = Some "TopicalPageRank" ->
  inference fs L (first ++ rest) w = (Ok outs, w') ->
  inference fs L first w = (Ok (take (length first) outs), w').
Proof.
  intros Htype Hrun.
  destruct (inference_ranking_inv fs L w _ outs w' Htype Hrun)
    as (g & l & n & wd & mc & ext0 & Hg & Hl & Hn & Hwd & Hmc & Hext).
  rewrite (inference_ranking_run fs L g l n wd mc w _ ext0) in Hrun
    by assumption.
  rewrite (inference_ranking_run fs L g l n wd mc w first ext0) by assumption.
  apply ranking_loop_threads in Hrun as (-> & ks & -> & Hks).
  apply threaded_prefix in Hks.
  rewrite (ranking_loop_of_threaded fs L g l n wd mc first ext0 _ [] _ Hks).
  simpl. rewrite fmap_take. reflexivity.
Qed.

(** A batch of two texts and its first text, with an extractor that keeps
    what it loaded. *)
Lemma ranking_results_of_a_prefix_witness :
  fst (inference (fs_of ranking_dir) (stub_libs false) [PStr [97%N]]
         (world_of "TopicalPageRank")) =
    Ok [Keyphrases (L := stub_libs false) [[97%N]]].
Proof.
  pose proof (ranking_results_of_a_prefix (fs_of ranking_dir) (stub_libs false)
                (world_of "TopicalPageRank") [PStr [97%N]] [PStr [98%N]]
                [Keyphrases (L := stub_libs false) [[97%N]];
                 Keyphrases (L := stub_libs false) [[97%N]; [98%N]]]
                (snd (inference (fs_of ranking_dir) (stub_libs false)
                        [PStr [97%N]; PStr [98%N]]
                        (world_of "TopicalPageRank")))
                eq_refl eq_refl) as H.
  rewrite H. reflexivity.
Defined.

(** ** What a batch gets back *)

Lemma py_eq_inv (x : option string) (s : string) :
  py_eq x s = true -> x = Some s.
Proof.
  destruct x as [t|]; simpl; [|discriminate].
  intros H. apply String.eqb_eq in H. congruence.
Qed.

Lemma inference_returns_keyphrases (fs : FileSystem) (L : Libs) (w : World)
    (model_input : list pyval) (outs : list (output L)) :
  fst (inference fs L model_input w) = Ok outs ->
  model_type (_service w) = Some "TopicalPageRank" /\
  length outs = length model_input /\
  forallb is_keyphrases outs = true.
Proof.
  intros Hok.
  destruct (py_eq (model_type (_service w)) "TopicalPageRank") eqn:Hr.
  - apply py_eq_inv in Hr.
    destruct (inference fs L model_input w) as [r w'] eqn:Hrun.
    simpl in Hok. subst r.
    destruct (inference_ranking_inv fs L w model_input outs w' Hr Hrun)
      as (g & l & n & wd & mc & ext0 & Hg & Hl & Hn & Hwd & Hmc & Hext).
    rewrite (inference_ranking_run fs L g l n wd mc w model_input ext0) in Hrun
      by assumption.
    apply ranking_loop_threads in Hrun as (_ & ks & -> & Hks).
    split; [exact Hr|]. simpl. split.
    + rewrite length_fmap. exact (threaded_length fs L g l n wd mc _ _ _ _ Hks).
    + clear. induction ks as [|k ks IH]; [reflexivity|exact IH].
  - exfalso. revert Hok.
    unfold inference. unfold bind at 1. unfold enter at 1, emit at 1.
    unfold bind at 1. unfold self at 1. cbn [_service]. rewrite Hr.
    destruct (py_eq (model_type (_service w)) "DocSim").
    + unfold bind at 1, lift at 1.
      destruct (stopwords_words L fs); discriminate.
    + unfold_monad. discriminate.
Qed.

(** X17.  When the module-level [handle] answers a batch, the answer holds
    one result per request entry, each the key phrases of a text: the
    handler is then of the ranking type, and no answer ever holds
    similarities.  That is so on the first call as on the later ones. *)
Theorem batch_answer_has_one_result_per_request (fs : FileSystem) (L : Libs)
    (batch : list entry) (context : Context) (w : World)
    (outs : list (output L)) :
  fst (handle fs L (Some batch) context w) = Ok (Some outs) ->
  length outs = length batch /\
  forallb is_keyphrases outs = true /\
  model_type (_service (snd (handle fs L (Some batch) context w))) =
    Some "TopicalPageRank".
Proof.
  assert (Hinit : forall w1, initialized (_service w1) = true ->
            fst (handle fs L (Some batch) context w1) = Ok (Some outs) ->
            length outs = length batch /\
            forallb is_keyphrases outs = true /\
            model_type (_service (snd (handle fs L (Some batch) context w1))) =
              Some "TopicalPageRank").
  { intros w1 Hflag Hok.
    rewrite (handle_batch_result fs L batch context w1 Hflag) in Hok.
    destruct (fst (preprocess batch w1)) as [model_input|e] eqn:Hpre;
      [|discriminate Hok].
    destruct (fst (inference fs L model_input w1)) as [out|e] eqn:Hinf;
      [|discriminate Hok].
    injection Hok as ->.
    destruct (inference_returns_keyphrases fs L w1 model_input outs Hinf)
      as (Htype & Hlen & Hall).
    assert (Hdec : Forall2 decoded batch model_input).
    { rewrite preprocess_result in Hpre.
      destruct (supported (_service w1)); [|discriminate Hpre].
      apply preprocess_loop_spec in Hpre as (new & -> & Hnew). exact Hnew. }
    split; [rewrite Hlen; symmetry; exact (Forall2_length _ _ _ Hdec)|].
    split; [exact Hall|].
    destruct (emits_handle_initialized fs L (Some batch) context w1 Hflag)
      as (evs & -> & _).
    exact Htype. }
  destruct (initialized (_service w)) eqn:Hflag; [exact (Hinit w Hflag)|].
  rewrite (handle_uninitialized fs L (Some batch) context w Hflag).
  pose proof (initialize_sets_flag fs context w) as Hset.
  destruct (initialize fs context w) as [[[]|e] w1]; [|discriminate].
  exact (Hinit w1 Hset).
Qed.

(** The first call on the freshly loaded module, with the directory of the
    ranking model and two requests. *)
Lemma batch_answer_has_one_result_per_request_witness :
  fst (handle (fs_of ranking_dir) (stub_libs true)
         (Some [request_a; request_b]) (context_of "/m") fresh_world) =
    Ok (Some [Keyphrases (L := stub_libs true) [[97%N]];
              Keyphrases (L := stub_libs true) [[98%N]]]) /\
  model_type
    (_service
       (snd (handle (fs_of ranking_dir) (stub_libs true)
               (Some [request_a; request_b]) (context_of "/m") fresh_world))) =
    Some "TopicalPageRank".
Proof.
  assert (H : fst (handle (fs_of ranking_dir) (stub_libs true)
                     (Some [request_a; request_b]) (context_of "/m")
                     fresh_world) =
              Ok (Some [Keyphrases (L := stub_libs true) [[97%N]];
                        Keyphrases (L := stub_libs true) [[98%N]]]))
    by (vm_compute; reflexivity).
  split; [exact H|].
  exact (proj2 (proj2 (batch_answer_has_one_result_per_request _ _ _ _ _ _ H))).
Defined.
